(** * proxy-monitor: the check-record-alert pipeline of [main.py]

    A shallow embedding of [sanitize_sheet_name], [check_proxy_speed],
    [log_to_excel], [send_email_alert] and the target loop of [main],
    together with the properties of the pipeline.

    Conventions of the embedding.
    - A Python [str] is a list of Unicode code points ([N]); [len] is
      [length], [s[:n]] is [firstn n s].
    - Library calls whose result the program cannot influence (the HTTP
      client, the clock, the workbook reader and writer, the SMTP client,
      the process environment) are answered by an environment [Env]; every
      theorem quantifies over it.
    - Exceptions are explicit: a computation either returns a value or
      raises, and [try ... except] is a combinator. *)

From Stdlib Require Import ZArith NArith List String Ascii Bool Lia.
From Stdlib Require Import Floats.SpecFloat Numbers.DecimalString.
Import ListNotations.

(** ** Python strings *)

Module PyStr.

Definition char := N.
Definition str := list char.

(** A literal of the source text. *)
Definition lit (s : string) : str :=
  map (fun a => N_of_ascii a) (list_ascii_of_string s).

Arguments lit s%_string.

Definition char_eqb (a b : char) : bool := N.eqb a b.

Fixpoint str_eqb (a b : str) : bool :=
  match a, b with
  | [], [] => true
  | x :: a', y :: b' => char_eqb x y && str_eqb a' b'
  | _, _ => false
  end.

(** [s.startswith(p)] *)
Fixpoint starts_with (p s : str) : bool :=
  match p, s with
  | [], _ => true
  | _ :: _, [] => false
  | a :: p', b :: s' => char_eqb a b && starts_with p' s'
  end.

(** The scan of [str.replace] for a non-empty [old]: left to right, an
    occurrence found at the current position is replaced and the scan
    resumes after it ([skip] counts the characters of that occurrence
    still to be passed over), so occurrences never overlap and the
    replacement text is not scanned again. *)
Fixpoint replace_scan (old new : str) (skip : nat) (s : str) : str :=
  match s with
  | [] => []
  | c :: t =>
      match skip with
      | S k => replace_scan old new k t
      | O =>
          if starts_with old s
          then new ++ replace_scan old new (pred (List.length old)) t
          else c :: replace_scan old new 0 t
      end
  end.

(** [s.replace(old, new)]; with an empty [old] Python puts [new] before
    every character and at the end. *)
Definition replace (old new s : str) : str :=
  match old with
  | [] => new ++ flat_map (fun c => c :: new) s
  | _ :: _ => replace_scan old new 0 s
  end.

(** [c in s] for a one-character [c]. *)
Definition mem (c : char) (s : str) : bool := existsb (char_eqb c) s.

End PyStr.

Import PyStr.

(** ** [sanitize_sheet_name] *)

Definition invalid_chars : str := lit "[]/\?*:".

Definition sanitize_sheet_name (url : str) : str :=
  let name :=
    replace (lit "www.") []
      (replace (lit "http://") [] (replace (lit "https://") [] url)) in
  let name :=
    fold_left (fun name char => replace [char] (lit "_") name)
      invalid_chars name in
  firstn 31 name.

(** *** The reference definitions the key derivation is compared with *)

(** Dropping one leading occurrence of [p]. *)
Definition strip_leading (p s : str) : str :=
  if starts_with p s then skipn (List.length p) s else s.

(** One pass over the text: each invalid character becomes an underscore. *)
Definition underscore_invalid (s : str) : str :=
  map (fun c => if mem c invalid_chars then 95%N else c) s.

(** The derivation as worded with leading prefixes only. *)
Definition sanitize_leading (url : str) : str :=
  firstn 31
    (underscore_invalid
       (strip_leading (lit "www.")
          (strip_leading (lit "http://")
             (strip_leading (lit "https://") url)))).

(** Deleting every occurrence of [pat], leftmost first, resuming after each
    deleted occurrence. *)
Fixpoint remove_all_fuel (fuel : nat) (pat s : str) : str :=
  match fuel with
  | O => []
  | S f =>
      match s with
      | [] => []
      | c :: t =>
          if starts_with pat s
          then remove_all_fuel f pat (skipn (List.length pat) s)
          else c :: remove_all_fuel f pat t
      end
  end.

Definition remove_all (pat s : str) : str :=
  remove_all_fuel (S (List.length s)) pat s.

(** The derivation with every occurrence of the three markers deleted. *)
Definition sanitize_everywhere (url : str) : str :=
  firstn 31
    (underscore_invalid
       (remove_all (lit "www.")
          (remove_all (lit "http://")
             (remove_all (lit "https://") url)))).

(** ** Numbers and the [.4f] format *)

Module PyNum.

(** IEEE-754 binary64, as [float] is in CPython. *)
Definition prec : Z := 53.
Definition emax : Z := 1024.

Inductive pynum :=
| PyInt (z : Z)
| PyFloat (f : spec_float).

(** [end_time - start_time] *)
Definition float_sub (x y : spec_float) : spec_float := SFsub prec emax x y.

(** [float(z)]: the nearest binary64; [None] where CPython raises
    [OverflowError] (the magnitude rounds beyond the largest float). *)
Definition float_of_int (z : Z) : option spec_float :=
  match binary_normalize prec emax z 0 false with
  | S754_infinity _ => None
  | f => Some f
  end.

(** The integer nearest to [num / den] (for [0 <= num], [0 < den]), a tie
    going to the even one. *)
Definition round_half_even (num den : Z) : Z :=
  let q := (num / den)%Z in
  let r := (num mod den)%Z in
  if (2 * r <? den)%Z then q
  else if (den <? 2 * r)%Z then (q + 1)%Z
  else if Z.even q then q else (q + 1)%Z.

(** [m * 2^e * 10^4], rounded to an integer. *)
Definition scaled4 (m : positive) (e : Z) : Z :=
  if (0 <=? e)%Z then (Zpos m * 2 ^ e * 10000)%Z
  else round_half_even (Zpos m * 10000) (2 ^ (- e)).

Definition digits (n : Z) : str :=
  lit (NilZero.string_of_uint (N.to_uint (Z.to_N n))).

(** Four digits, zero-padded on the left. *)
Definition pad4 (n : Z) : str :=
  let d := digits n in
  repeat 48%N (4 - List.length d) ++ d.

Definition sign_text (s : bool) : str := if s then lit "-" else [].

(** [format(f, '.4f')] for a float: the exact binary value correctly
    rounded to four decimals. *)
Definition format_float_4f (f : spec_float) : str :=
  match f with
  | S754_zero s => sign_text s ++ lit "0.0000"
  | S754_infinity s => sign_text s ++ lit "inf"
  | S754_nan => lit "nan"
  | S754_finite s m e =>
      let q := scaled4 m e in
      sign_text s ++ digits (q / 10000) ++ lit "." ++ pad4 (q mod 10000)
  end.

(** [f"{x:.4f}"]: an [int] is converted with [float(x)] first. *)
Definition format_4f (x : pynum) : option str :=
  match x with
  | PyFloat f => Some (format_float_4f f)
  | PyInt z => option_map format_float_4f (float_of_int z)
  end.

(** [str(z)] for an [int]. *)
Definition str_of_int (z : Z) : str :=
  (if (z <? 0)%Z then lit "-" else []) ++ digits (Z.abs z).

End PyNum.

Import PyNum.

(** ** The history store *)

(** A row of a sheet, under the columns
    ['Timestamp', 'URL', 'Download Time (s)', 'Status']. *)
Record row := mk_row {
  Timestamp : str;
  URL : str;
  Download_Time : str;
  Status : str
}.

(** A [DataFrame] with those four columns: its rows, in index order. *)
Definition frame := list row.

(** [pd.concat([a, b], ignore_index=True)] *)
Definition concat (a b : frame) : frame := a ++ b.

(** A workbook: its sheets in workbook order.  It is also the model of the
    [dict] called [sheets], whose order is insertion order.  What the
    reader makes of a stored sheet and which title the writer gives a sheet
    are left to the environment. *)
Definition book := list (str * frame).

Module Dict.

(** [d.get(k)] *)
Fixpoint get (k : str) (d : book) : option frame :=
  match d with
  | [] => None
  | (k', v) :: d' => if str_eqb k k' then Some v else get k d'
  end.

(** [d[k] = v]: an existing key keeps its place, a new one goes last. *)
Fixpoint set (k : str) (v : frame) (d : book) : book :=
  match d with
  | [] => [(k, v)]
  | (k', v') :: d' =>
      if str_eqb k k' then (k', v) :: d' else (k', v') :: set k v d'
  end.

End Dict.

(** [xls.sheet_names] of an opened workbook, and the rows it holds under a
    sheet name. *)
Definition sheet_names (b : book) : list str := map fst b.

Definition stored_rows (b : book) (sheet : str) : frame :=
  match Dict.get sheet b with Some f => f | None => [] end.

(** [{sheet: xls.parse(sheet) for sheet in xls.sheet_names}], for what
    [xls.parse] returns. *)
Definition read_sheets (parse : str -> frame) (names : list str) : book :=
  fold_left (fun d sheet => Dict.set sheet (parse sheet) d) names [].

(** What a writer leaves of the sheets handed to it one after the other:
    each frame as it is, the first under the name asked for, a later one
    under the title [title_of] chooses given the titles already in the
    workbook (a writer may change a name that clashes with one of them). *)
Fixpoint stored_from (title_of : list str -> str -> str) (titles : list str)
    (sheets : book) : book :=
  match sheets with
  | [] => []
  | (name, df) :: rest =>
      let title := match titles with
                   | [] => name
                   | _ :: _ => title_of titles name
                   end in
      (title, df) :: stored_from title_of (titles ++ [title]) rest
  end.

Definition stored_as (title_of : list str -> str -> str) (sheets : book)
    : book :=
  stored_from title_of [] sheets.

(** What is found at a path: nothing, something that is not a readable
    workbook, or a workbook. *)
Inductive file :=
| Absent
| Garbage
| Workbook (b : book).

Definition filesystem := str -> file.

Definition fs_write (path : str) (f : file) (fs : filesystem) : filesystem :=
  fun p => if str_eqb p path then f else fs p.

(** The partitions of a store and the history of one of them. *)
Definition partitions (f : file) : book :=
  match f with Workbook b => b | _ => [] end.

Definition history (key : str) (f : file) : option frame :=
  Dict.get key (partitions f).

(** ** Exceptions, events and the environment *)

Inductive exn :=
| RequestException (msg : str)   (* requests.exceptions.RequestException *)
| OtherException (msg : str)     (* any other subclass of Exception *)
| SystemExit (code : Z).         (* raised by parser.error *)

Definition is_Exception (e : exn) : bool :=
  match e with SystemExit _ => false | _ => true end.

Definition is_RequestException (e : exn) : bool :=
  match e with RequestException _ => true | _ => false end.

(** [str(e)] *)
Definition exn_text (e : exn) : str :=
  match e with
  | RequestException m => m
  | OtherException m => m
  | SystemExit c => str_of_int c
  end.

(** The message handed to the mail transport. *)
Record message := mk_message {
  msg_body : str;
  msg_subject : str;
  msg_to : str;
  msg_from : option str
}.

Definition set_from (m : message) (sender : str) : message :=
  {| msg_body := msg_body m; msg_subject := msg_subject m;
     msg_to := msg_to m; msg_from := Some sender |}.

(** What the run does to the outside, in order; a call to the outside is
    recorded with the answer it got (for a call that can fail, [None]: it
    went through, [Some m]: it raised with text [m]).  [ExcelParsed]
    records the sheets a read returned.  The two [Call_] events mark the
    entry of the functions of the same name. *)
Inductive event :=
| Print (line : str)
| Clock (t : spec_float)
| Now (iso : str)
| HttpGet (url proxy_url : str) (timeout : Z) (failure : option str)
| PathExists (path : str) (answer : bool)
| ExcelRead (path : str) (failure : option str)
| ExcelParsed (path : str) (sheets : book)
| ExcelWrite (path : str) (sheets : book) (failure : option str)
| GetUser (answer : option str)
| GetHostname (answer : str)
| SmtpConnect (host : str) (failure : option str)
| SmtpSslConnect (server : str) (port : Z) (failure : option str)
| SmtpLogin (user password : str) (failure : option str)
| SmtpSend (msg : message) (failure : option str)
| SmtpQuit (failure : option str)
| Call_log_to_excel (log_file url : str) (download_time : pynum)
    (status : str)
| Call_send_email_alert (subject body : str).

(** The answers of the outside, indexed by the number of calls made to it
    so far.  An exception of the HTTP client is a [RequestException] or,
    where [env_http_escapes] says so, one outside that class; the other
    libraries raise ordinary exceptions.  [env_parse] is what the reader
    returns for a stored sheet (it may convert cells), [env_title] the
    title the writer gives a sheet after the first.  A failed write leaves
    the file it names at the path. *)
Record Env := {
  env_clock : nat -> spec_float;
  env_now : nat -> str;
  env_http : nat -> str -> option str;
  env_http_escapes : nat -> str -> bool;
  env_read : nat -> option str;
  env_parse : nat -> str -> frame -> frame;
  env_write : nat -> option (str * file);
  env_title : nat -> list str -> str -> str;
  env_user : option str;
  env_hostname : str;
  env_smtp : nat -> option str
}.

Record world := mk_world {
  calls : nat;
  files : filesystem;
  trace : list event
}.

(** ** Computations that may raise *)

Inductive result (A : Type) :=
| Ok (a : A)
| Raise (e : exn).

Arguments Ok {A} a.
Arguments Raise {A} e.

Definition M (A : Type) := world -> result A * world.

Definition ret {A} (a : A) : M A := fun w => (Ok a, w).

Definition raise {A} (e : exn) : M A := fun w => (Raise e, w).

Definition bind {A B} (m : M A) (k : A -> M B) : M B :=
  fun w =>
    match m w with
    | (Ok a, w') => k a w'
    | (Raise e, w') => (Raise e, w')
    end.

Declare Scope py_scope.
Delimit Scope py_scope with py.
Notation "x <- m ;; k" := (bind m (fun x => k))
  (at level 100, m at next level, right associativity) : py_scope.
Notation "m ;; k" := (bind m (fun _ => k))
  (at level 100, right associativity) : py_scope.
Open Scope py_scope.

(** [try: body except C as e: handler(e)], [catches] deciding [C]. *)
Definition try_except {A} (body : M A) (catches : exn -> bool)
    (handler : exn -> M A) : M A :=
  fun w =>
    match body w with
    | (Ok a, w') => (Ok a, w')
    | (Raise e, w') => if catches e then handler e w' else (Raise e, w')
    end.

(** [with cm: body], for a context manager whose [__exit__] runs [leave]
    and suppresses nothing: an exception of [leave] replaces the one of
    [body]. *)
Definition with_exit {A} (body : M A) (leave : M unit) : M A :=
  fun w =>
    match body w with
    | (r, w') =>
        match leave w' with
        | (Ok _, w'') => (r, w'')
        | (Raise e, w'') => (Raise e, w'')
        end
    end.

(** [for x in l: body(x)] *)
Fixpoint for_each {A} (l : list A) (body : A -> M unit) : M unit :=
  match l with
  | [] => ret tt
  | x :: l' => body x ;; for_each l' body
  end.

Definition emit (e : event) : M unit :=
  fun w => (Ok tt, {| calls := calls w; files := files w;
                      trace := trace w ++ [e] |}).

(** One call to the outside: the answer is computed from the call count
    and the files, the count goes up, the event is recorded. *)
Definition outside {A} (answer : nat -> filesystem -> A)
    (ev : A -> event) (after : A -> filesystem -> filesystem) : M A :=
  fun w =>
    let a := answer (calls w) (files w) in
    (Ok a, {| calls := S (calls w); files := after a (files w);
              trace := trace w ++ [ev a] |}).

Definition raise_if {A} (failure : option str) (mk : str -> exn) (a : A)
    : M A :=
  match failure with
  | Some m => raise (mk m)
  | None => ret a
  end.

(** ** The configuration *)

(** The namespace [args] after [parse_args]: an unset option is [None]. *)
Record Args := {
  host : option str;
  port : option Z;
  websites : option (list str);
  log_file : option str;
  recipient_email : option str;
  use_local_mta : bool;
  smtp_server : option str;
  smtp_port : option Z;
  smtp_user : option str;
  smtp_password : option str
}.

(** Truth value of an optional string, integer or list: [None], the empty
    string, [0] and the empty list are false. *)
Definition truthy_str (o : option str) : bool :=
  match o with Some (_ :: _) => true | _ => false end.

Definition truthy_int (o : option Z) : bool :=
  match o with Some z => negb (z =? 0)%Z | None => false end.

Definition truthy_list {A} (o : option (list A)) : bool :=
  match o with Some (_ :: _) => true | _ => false end.

(** [all([...])] *)
Definition all (l : list bool) : bool := forallb (fun b => b) l.

(** [f"{x}"] for an optional string or integer. *)
Definition text (o : option str) : str :=
  match o with Some s => s | None => lit "None" end.

Definition int_text (o : option Z) : str :=
  match o with Some z => str_of_int z | None => lit "None" end.

(** ** The pipeline *)

Section Pipeline.

Variable env : Env.

(** *** Calls to the outside *)

Definition print (line : str) : M unit := emit (Print line).

Definition time_time : M spec_float :=
  outside (fun n _ => env_clock env n) Clock (fun _ fs => fs).

Definition datetime_now_isoformat : M str :=
  outside (fun n _ => env_now env n) Now (fun _ fs => fs).

(** [requests.get(url, proxies=..., timeout=...)] followed by
    [raise_for_status()]. *)
Definition requests_get (url proxy_url : str) (timeout : Z) : M unit :=
  r <- outside (fun n _ => (env_http env n url, env_http_escapes env n url))
         (fun r => HttpGet url proxy_url timeout (fst r)) (fun _ fs => fs) ;;
  raise_if (fst r) (if snd r then OtherException else RequestException) tt.

Definition os_path_exists (path : str) : M bool :=
  outside
    (fun _ fs => match fs path with Absent => false | _ => true end)
    (PathExists path) (fun _ fs => fs).

(** Opening the workbook at [path] and parsing its sheets. *)
Definition excel_read (path : str) : M book :=
  r <- outside
         (fun n fs =>
            match fs path with
            | Absent => (Some (lit "No such file or directory"), [])
            | Garbage =>
                (Some (match env_read env n with
                       | Some m => m
                       | None => lit "Excel file format cannot be determined, you must specify an engine manually."
                       end), [])
            | Workbook b =>
                match env_read env n with
                | Some m => (Some m, [])
                | None =>
                    (None,
                     read_sheets
                       (fun sheet => env_parse env n sheet (stored_rows b sheet))
                       (sheet_names b))
                end
            end)
         (fun r => ExcelRead path (fst r)) (fun _ fs => fs) ;;
  match fst r with
  | Some m => raise (OtherException m)
  | None => emit (ExcelParsed path (snd r)) ;; ret (snd r)
  end.

(** Writing every sheet of [sheets] to a new workbook at [path]. *)
Definition excel_write (path : str) (sheets : book) : M unit :=
  r <- outside
         (fun n _ => (env_write env n, stored_as (env_title env n) sheets))
         (fun r => ExcelWrite path sheets (option_map fst (fst r)))
         (fun r fs =>
            match fst r with
            | Some (_, remains) => fs_write path remains fs
            | None => fs_write path (Workbook (snd r)) fs
            end) ;;
  raise_if (option_map fst (fst r)) OtherException tt.

Definition os_environ_get_USER : M (option str) :=
  outside (fun _ _ => env_user env) GetUser (fun _ fs => fs).

Definition socket_gethostname : M str :=
  outside (fun _ _ => env_hostname env) GetHostname (fun _ fs => fs).

Definition smtp_call (ev : option str -> event) : M unit :=
  failure <- outside (fun n _ => env_smtp env n) ev (fun _ fs => fs) ;;
  raise_if failure OtherException tt.

(** *** [check_proxy_speed] *)

Definition check_proxy_speed (url proxy_url : str)
    : M (option spec_float) :=
  try_except
    (start_time <- time_time ;;
     requests_get url proxy_url 30 ;;
     end_time <- time_time ;;
     ret (Some (float_sub end_time start_time)))
    is_RequestException
    (fun e =>
       print (lit "Error connecting to " ++ url ++ lit " via proxy: "
              ++ exn_text e) ;;
       ret None).

(** *** [log_to_excel] *)

Definition new_row (stamp url : str) (time_text status : str) : frame :=
  [ {| Timestamp := stamp; URL := url; Download_Time := time_text;
       Status := status |} ].

(** [sheets[sheet_name] = ...], by whether the sheet is there. *)
Definition merge_row (sheet_name : str) (df_new_row : frame)
    (sheets : book) : book :=
  match Dict.get sheet_name sheets with
  | Some old => Dict.set sheet_name (concat old df_new_row) sheets
  | None => Dict.set sheet_name df_new_row sheets
  end.

Definition log_to_excel (log_file url : str) (download_time : pynum)
    (status : str) : M unit :=
  emit (Call_log_to_excel log_file url download_time status) ;;
  let sheet_name := sanitize_sheet_name url in
  stamp <- datetime_now_isoformat ;;
  time_text <- match format_4f download_time with
               | Some t => ret t
               | None => raise (OtherException
                                  (lit "int too large to convert to float"))
               end ;;
  let df_new_row := new_row stamp url time_text status in
  try_except
    (found <- os_path_exists log_file ;;
     sheets <- (if found then excel_read log_file else ret []) ;;
     excel_write log_file (merge_row sheet_name df_new_row sheets))
    is_Exception
    (fun e =>
       print (lit "Error writing to log file " ++ log_file ++ lit ": "
              ++ exn_text e)).

(** *** [send_email_alert] *)

Definition send_email_alert (args : Args) (subject body : str) : M unit :=
  emit (Call_send_email_alert subject body) ;;
  if negb (truthy_str (recipient_email args)) then
    print (lit "Recipient email not configured. Skipping email alert.")
  else
    let msg := {| msg_body := body; msg_subject := subject;
                  msg_to := text (recipient_email args);
                  msg_from := None |} in
    try_except
      (if use_local_mta args then
         u <- os_environ_get_USER ;;
         let user := if truthy_str u then text u
                     else lit "proxy-monitor" in
         hostname <- socket_gethostname ;;
         let msg := set_from msg (user ++ lit "@" ++ hostname) in
         smtp_call (SmtpConnect (lit "localhost")) ;;
         with_exit (smtp_call (SmtpSend msg)) (smtp_call SmtpQuit) ;;
         print (lit "Email alert sent successfully via local MTA.")
       else
         if negb (all [truthy_str (smtp_server args);
                       truthy_int (smtp_port args);
                       truthy_str (smtp_user args);
                       truthy_str (smtp_password args)]) then
           print (lit "External SMTP server configuration is not complete. Skipping email alert.")
         else
           let msg := set_from msg (text (smtp_user args)) in
           match smtp_port args with
           | Some p =>
               smtp_call (SmtpSslConnect (text (smtp_server args)) p) ;;
               with_exit
                 (smtp_call (SmtpLogin (text (smtp_user args))
                               (text (smtp_password args))) ;;
                  smtp_call (SmtpSend msg))
                 (smtp_call SmtpQuit) ;;
               print (lit "Email alert sent successfully via external SMTP.")
           | None => ret tt
           end)
      is_Exception
      (fun e => print (lit "Failed to send email alert: " ++ exn_text e)).

(** *** [main], from the check of the required settings on *)

(** [parser.error(message)] ends the process with status 2. *)
Definition parser_error {A} (message : str) : M A := raise (SystemExit 2).

Definition alert_subject : str := lit "Proxy Server Down Alert!".

Definition alert_body (args : Args) (website stamp : str) : str :=
  lit "The proxy server at " ++ text (host args) ++ lit ":"
  ++ int_text (port args) ++ lit " seems to be down." ++ [10%N]
  ++ lit "Failed to connect to " ++ website ++ lit " at " ++ stamp
  ++ lit "." ++ [10%N]
  ++ lit "Please check the proxy server status.".

(** The body of the loop over [args.websites]. *)
Definition check_website (args : Args) (proxy_url website : str)
    : M unit :=
  print (lit "Checking " ++ website ++ lit " through proxy "
         ++ text (host args) ++ lit "...") ;;
  download_time <- check_proxy_speed website proxy_url ;;
  match download_time with
  | Some t =>
      print (lit "Successfully connected to " ++ website
             ++ lit ". Download time: " ++ format_float_4f t
             ++ lit " seconds.") ;;
      log_to_excel (text (log_file args)) website (PyFloat t) (lit "UP")
  | None =>
      print (lit "Failed to connect to " ++ website
             ++ lit " through the proxy.") ;;
      log_to_excel (text (log_file args)) website (PyInt 0) (lit "DOWN") ;;
      let subject := alert_subject in
      stamp <- datetime_now_isoformat ;;
      let body := alert_body args website stamp in
      send_email_alert args subject body
  end.

Definition required_present (args : Args) : bool :=
  all [truthy_str (host args); truthy_int (port args);
       truthy_list (websites args); truthy_str (log_file args)].

Definition main (args : Args) : M unit :=
  (if negb (required_present args) then
     parser_error (lit "Missing required arguments. Please provide them via command line or a config file: --proxy-host, --proxy-port, --websites, --log-file")
   else ret tt) ;;
  let proxy_url := lit "http://" ++ text (host args) ++ lit ":"
                   ++ int_text (port args) in
  for_each (match websites args with Some l => l | None => [] end)
    (check_website args proxy_url).

End Pipeline.

(** ** Reading a run *)

(** The events a computation adds to the trace when run from [w]. *)
Definition events_of {A} (m : M A) (w : world) : list event :=
  skipn (List.length (trace w)) (trace (snd (m w))).

(** The calls made to a mail transport. *)
Definition is_transport (e : event) : bool :=
  match e with
  | SmtpConnect _ _ | SmtpSslConnect _ _ _ | SmtpLogin _ _ _
  | SmtpSend _ _ | SmtpQuit _ => true
  | _ => false
  end.

Definition transport_calls (evs : list event) : list event :=
  filter is_transport evs.

(** The targets probed, and what was handed to [log_to_excel] (target,
    download time, status), in order. *)
Definition probed (evs : list event) : list str :=
  flat_map (fun e => match e with HttpGet url _ _ _ => [url] | _ => [] end)
    evs.

Definition recorded (evs : list event) : list (str * pynum * str) :=
  flat_map
    (fun e =>
       match e with
       | Call_log_to_excel _ url download_time status =>
           [(url, download_time, status)]
       | _ => []
       end)
    evs.


(** The time stamps read with [datetime.now()], in order. *)
Definition stamps_of (evs : list event) : list str :=
  flat_map (fun e => match e with Now iso => [iso] | _ => [] end) evs.

(** Probes with their outcome, and notification attempts, in order. *)
Inductive step :=
| Probed (url : str) (down : bool)
| Notified (subject body : str).

Definition is_some {A} (o : option A) : bool :=
  match o with Some _ => true | None => false end.

Definition steps (evs : list event) : list step :=
  flat_map
    (fun e =>
       match e with
       | HttpGet url _ _ failure => [Probed url (is_some failure)]
       | Call_send_email_alert subject body => [Notified subject body]
       | _ => []
       end)
    evs.


(** The configured targets. *)
Definition targets (args : Args) : list str :=
  match websites args with Some l => l | None => [] end.




(** The workbooks handed to the writer. *)
Definition written (evs : list event) : list book :=
  flat_map
    (fun e => match e with ExcelWrite _ sheets _ => [sheets] | _ => [] end)
    evs.



(** ** Further readings of a run and of the store *)

(** [pat in s] for strings: [pat] occurs somewhere in [s]. *)
Fixpoint contains (pat s : str) : bool :=
  starts_with pat s
  || match s with
     | [] => false
     | _ :: t => contains pat t
     end.

(** The three markers [sanitize_sheet_name] deletes. *)
Definition markers : list str :=
  [lit "https://"; lit "http://"; lit "www."].

(** The paths at which the store was looked for, read or written. *)
Definition store_paths (evs : list event) : list str :=
  flat_map
    (fun e =>
       match e with
       | PathExists p _ => [p]
       | ExcelRead p _ => [p]
       | ExcelWrite p _ _ => [p]
       | _ => []
       end)
    evs.



(** [proxy_url] of [main]. *)
Definition proxy_url_of (args : Args) : str :=
  lit "http://" ++ text (host args) ++ lit ":" ++ int_text (port args).

(** A world whose log file is not a workbook. *)
Definition corrupt_world : world :=
  {| calls := 0;
     files := fun p => if str_eqb p (lit "log.xlsx") then Garbage else Absent;
     trace := [] |}.


(** ** Sample settings and environments *)

(** Everything outside works; targets under "https://down." time out.  The
    clock advances an eighth of a second per call; the reader returns the
    rows as they are stored and the writer keeps the names asked for. *)
Definition calm_env : Env :=
  {| env_clock := fun n => S754_finite false (Pos.of_succ_nat n) (-3);
     env_now := fun n => lit "T" ++ str_of_int (Z.of_nat n);
     env_http := fun _ url =>
       if starts_with (lit "https://down.") url then Some (lit "timed out")
       else None;
     env_http_escapes := fun _ _ => false;
     env_read := fun _ => None;
     env_parse := fun _ _ rows => rows;
     env_write := fun _ => None;
     env_title := fun _ _ name => name;
     env_user := Some (lit "ops");
     env_hostname := lit "box";
     env_smtp := fun _ => None |}.

(** The same, but every write of the store and every call to a mail
    transport fails. *)
Definition failing_env : Env :=
  {| env_clock := env_clock calm_env;
     env_now := env_now calm_env;
     env_http := env_http calm_env;
     env_http_escapes := fun _ _ => false;
     env_read := fun _ => None;
     env_parse := fun _ _ rows => rows;
     env_write := fun _ => Some (lit "disk full", Garbage);
     env_title := fun _ _ name => name;
     env_user := Some (lit "ops");
     env_hostname := lit "box";
     env_smtp := fun _ => Some (lit "connection refused") |}.




(** As [calm_env], with an HTTP client that cannot make sense of the proxy
    address and raises an exception that is not a [RequestException]. *)
Definition escaping_env : Env :=
  {| env_clock := env_clock calm_env;
     env_now := env_now calm_env;
     env_http := fun _ _ => Some (lit "Failed to parse: http://.:8080");
     env_http_escapes := fun _ _ => true;
     env_read := fun _ => None;
     env_parse := fun _ _ rows => rows;
     env_write := fun _ => None;
     env_title := fun _ _ name => name;
     env_user := Some (lit "ops");
     env_hostname := lit "box";
     env_smtp := fun _ => None |}.

Definition fresh_world : world :=
  {| calls := 0; files := fun _ => Absent; trace := [] |}.

(** A store at "log.xlsx" that already holds a partition of another
    target. *)
Definition seeded_world : world :=
  {| calls := 0;
     files := fun p =>
       if str_eqb p (lit "log.xlsx")
       then Workbook
              [(lit "other.example",
                [mk_row (lit "T") (lit "http://other.example")
                   (lit "0.1000") (lit "UP")])]
       else Absent;
     trace := [] |}.

(** Local-relay mode with a recipient and a complete remote quadruple. *)
Definition local_args_for (sites : list str) : Args :=
  {| host := Some (lit "10.0.0.1"); port := Some 8080%Z;
     websites := Some sites;
     log_file := Some (lit "log.xlsx");
     recipient_email := Some (lit "ops@example.org");
     use_local_mta := true;
     smtp_server := Some (lit "smtp.example.org"); smtp_port := Some 465%Z;
     smtp_user := Some (lit "monitor"); smtp_password := Some (lit "secret") |}.

Definition local_args : Args :=
  local_args_for [lit "https://ok.example"; lit "https://down.example"].

(** The same settings with the proxy host ".". *)
Definition dot_proxy_args : Args :=
  {| host := Some (lit "."); port := port local_args;
     websites := websites local_args; log_file := log_file local_args;
     recipient_email := recipient_email local_args;
     use_local_mta := true;
     smtp_server := smtp_server local_args; smtp_port := smtp_port local_args;
     smtp_user := smtp_user local_args;
     smtp_password := smtp_password local_args |}.

(** Local-relay mode without a recipient. *)
Definition local_args_no_recipient : Args :=
  {| host := host local_args; port := port local_args;
     websites := websites local_args; log_file := log_file local_args;
     recipient_email := None;
     use_local_mta := true;
     smtp_server := smtp_server local_args; smtp_port := smtp_port local_args;
     smtp_user := smtp_user local_args;
     smtp_password := smtp_password local_args |}.


(** * Properties *)

(** ** Strings *)

Lemma char_eqb_eq (a b : char) : char_eqb a b = true <-> a = b.
Proof. unfold char_eqb. apply N.eqb_eq. Qed.

Lemma char_eqb_refl (a : char) : char_eqb a a = true.
Proof. apply char_eqb_eq. reflexivity. Qed.

Lemma str_eqb_eq (a b : str) : str_eqb a b = true <-> a = b.
Proof.
  revert b. induction a as [|x a IH]; intros [|y b]; simpl;
    try (split; [discriminate | discriminate]); try tauto.
  rewrite andb_true_iff, char_eqb_eq, IH.
  split.
  - intros [-> ->]. reflexivity.
  - intros E. injection E as -> ->. split; reflexivity.
Qed.

Lemma str_eqb_refl (a : str) : str_eqb a a = true.
Proof. apply str_eqb_eq. reflexivity. Qed.

Lemma str_eqb_neq (a b : str) : a <> b -> str_eqb a b = false.
Proof.
  intros H. destruct (str_eqb a b) eqn:E; [|reflexivity].
  apply str_eqb_eq in E. contradiction.
Qed.

(** The scan with [k] characters still to pass over is the scan resumed
    [k] characters further on. *)
Lemma replace_scan_skip (old new : str) (k : nat) (s : str) :
  replace_scan old new k s = replace_scan old new 0 (skipn k s).
Proof.
  revert k. induction s as [|c t IH]; intros k.
  - destruct k; reflexivity.
  - destruct k as [|k]; [reflexivity|].
    simpl skipn. simpl replace_scan at 1. apply IH.
Qed.

(** The equation of [replace] at a non-empty text, as Python's scan reads:
    at an occurrence, put [new] and resume after it; otherwise keep the
    character and move on. *)
Lemma replace_cons (o : char) (old' new : str) (c : char) (t : str) :
  replace (o :: old') new (c :: t) =
    if starts_with (o :: old') (c :: t)
    then new ++ replace (o :: old') new
                  (skipn (List.length (o :: old')) (c :: t))
    else c :: replace (o :: old') new t.
Proof.
  unfold replace. cbn [replace_scan].
  destruct (starts_with (o :: old') (c :: t)); [|reflexivity].
  f_equal. cbn [List.length pred skipn]. apply replace_scan_skip.
Qed.

(** The scan does not look again at what a deletion brings together, and
    an empty [old] matches between all characters. *)
Example replace_no_rescan : replace (lit "ab") [] (lit "aabb") = lit "ab".
Proof. reflexivity. Qed.

Example replace_empty_old :
  replace [] (lit "_") (lit "abc") = lit "_a_b_c_".
Proof. reflexivity. Qed.

Example sanitize_example :
  sanitize_sheet_name (lit "https://www.example.com/a?b")
  = lit "example.com_a_b".
Proof. reflexivity. Qed.

Example format_quarter :
  format_4f (PyFloat (S754_finite false 4503599627370496 (-54)))
  = Some (lit "0.2500").
Proof. reflexivity. Qed.

Lemma length_skipn_le {A} (n : nat) (l : list A) :
  List.length (skipn n l) <= List.length l.
Proof. rewrite length_skipn. lia. Qed.

(** With fuel beyond the length of the text, deleting every occurrence is
    [replace] by the empty string. *)
Lemma remove_all_fuel_replace (fuel : nat) (o : char) (pat' s : str) :
  List.length s < fuel ->
  remove_all_fuel fuel (o :: pat') s = replace (o :: pat') [] s.
Proof.
  revert s. induction fuel as [|f IH]; intros s Hlen; [lia|].
  destruct s as [|c t]; [reflexivity|].
  rewrite replace_cons. cbn [remove_all_fuel].
  destruct (starts_with (o :: pat') (c :: t)).
  - cbn [app]. apply IH.
    pose proof (length_skipn_le (List.length pat') t) as Hle.
    cbn [List.length skipn] in *. lia.
  - f_equal. apply IH. cbn [List.length] in Hlen. lia.
Qed.

Lemma remove_all_replace (o : char) (pat' s : str) :
  remove_all (o :: pat') s = replace (o :: pat') [] s.
Proof. unfold remove_all. apply remove_all_fuel_replace. lia. Qed.

(** Replacing one character by one character is a [map]. *)
Lemma replace_char (c u : char) (s : str) :
  replace [c] [u] s = map (fun x => if char_eqb x c then u else x) s.
Proof.
  induction s as [|x t IH]; [reflexivity|].
  rewrite replace_cons. cbn [starts_with map List.length skipn app].
  rewrite andb_true_r.
  destruct (char_eqb c x) eqn:E.
  - apply char_eqb_eq in E. subst x. rewrite char_eqb_refl.
    f_equal. exact IH.
  - destruct (char_eqb x c) eqn:E'.
    + apply char_eqb_eq in E'. subst x. rewrite char_eqb_refl in E.
      discriminate.
    + f_equal. exact IH.
Qed.

(** The loop over the characters to replace is one pass that replaces
    every member of the list. *)
Lemma replace_each_char (cs : str) (u : char) (s : str) :
  fold_left (fun name char => replace [char] [u] name) cs s =
  map (fun x => if mem x cs then u else x) s.
Proof.
  revert s. induction cs as [|c cs IH]; intros s.
  - simpl. symmetry. apply map_id.
  - cbn [fold_left]. rewrite IH, replace_char, map_map.
    apply map_ext. intros x. unfold mem. cbn [existsb].
    destruct (char_eqb x c); cbn [orb]; [|reflexivity].
    destruct (existsb (char_eqb u) cs); reflexivity.
Qed.

Lemma mem_In (c : char) (s : str) : mem c s = true <-> In c s.
Proof.
  unfold mem. rewrite existsb_exists. split.
  - intros [x [Hin E]]. apply char_eqb_eq in E. subst. exact Hin.
  - intros Hin. exists c. split; [exact Hin | apply char_eqb_refl].
Qed.

Lemma underscore_invalid_clean (s : str) (c : char) :
  In c invalid_chars -> ~ In c (underscore_invalid s).
Proof.
  intros Hc Hin. unfold underscore_invalid in Hin.
  apply in_map_iff in Hin. destruct Hin as [x [Hx _]].
  destruct (mem x invalid_chars) eqn:E.
  - subst c. vm_compute in Hc. intuition discriminate.
  - subst x. apply mem_In in Hc. congruence.
Qed.

Lemma In_firstn {A} (n : nat) (l : list A) (x : A) :
  In x (firstn n l) -> In x l.
Proof.
  revert l. induction n as [|n IH]; intros [|y l]; simpl; try tauto.
  intros [H|H]; [left; exact H | right; apply IH; exact H].
Qed.

(** The key derivation deletes the three markers wherever they occur. *)
Lemma sanitize_sheet_name_unfold (url : str) :
  sanitize_sheet_name url = sanitize_everywhere url.
Proof.
  unfold sanitize_sheet_name, sanitize_everywhere, underscore_invalid.
  change (lit "_") with [95%N].
  rewrite replace_each_char.
  change (lit "www.") with (119%N :: lit "ww.").
  change (lit "http://") with (104%N :: lit "ttp://").
  change (lit "https://") with (104%N :: lit "ttps://").
  rewrite !remove_all_replace. reflexivity.
Qed.

(** ** Running the pipeline *)

Lemma skipn_length_app {A} (a b : list A) :
  skipn (List.length a) (a ++ b) = b.
Proof. induction a as [|x a IH]; [reflexivity | exact IH]. Qed.

(** A run that ends in [w'] having added [evs]. *)
Lemma events_of_run {A} (m : M A) (w w' : world) (r : result A)
    (evs : list event) :
  m w = (r, w') -> trace w' = trace w ++ evs -> events_of m w = evs.
Proof.
  intros Hrun Htr. unfold events_of. rewrite Hrun. cbn [snd].
  rewrite Htr. apply skipn_length_app.
Qed.

Ltac unfold_run :=
  cbv beta iota delta
    [bind ret raise try_except with_exit emit outside raise_if print
     time_time datetime_now_isoformat requests_get os_path_exists
     excel_read excel_write os_environ_get_USER socket_gethostname
     smtp_call parser_error];
  cbn [calls files trace fst snd option_map is_Exception
       is_RequestException].

Ltac known :=
  repeat match goal with
    | H : files _ _ = _ |- _ => progress rewrite H
    | H : env_read _ _ = _ |- _ => progress rewrite H
    | H : env_write _ _ = _ |- _ => progress rewrite H
    | H : env_smtp _ _ = _ |- _ => progress rewrite H
    | H : env_http _ _ _ = _ |- _ => progress rewrite H
    | H : env_http_escapes _ _ _ = _ |- _ => progress rewrite H
    end.

Ltac run := repeat progress (unfold_run; known).

Ltac tidy_trace := rewrite <- ?app_assoc; cbn [app].

(** What [check_proxy_speed] returns and does is decided by the answer of
    the HTTP client: a [RequestException] is caught and reported, another
    exception escapes. *)
Lemma check_proxy_speed_run (env : Env) (url proxy_url : str) (w : world) :
  check_proxy_speed env url proxy_url w =
  match env_http env (S (calls w)) url with
  | None =>
      (Ok (Some (float_sub (env_clock env (S (S (calls w))))
                   (env_clock env (calls w)))),
       {| calls := S (S (S (calls w))); files := files w;
          trace := trace w ++
            [Clock (env_clock env (calls w));
             HttpGet url proxy_url 30 None;
             Clock (env_clock env (S (S (calls w))))] |})
  | Some m =>
      if env_http_escapes env (S (calls w)) url
      then
        (Raise (OtherException m),
         {| calls := S (S (calls w)); files := files w;
            trace := trace w ++
              [Clock (env_clock env (calls w));
               HttpGet url proxy_url 30 (Some m)] |})
      else
        (Ok None,
         {| calls := S (S (calls w)); files := files w;
            trace := trace w ++
              [Clock (env_clock env (calls w));
               HttpGet url proxy_url 30 (Some m);
               Print (lit "Error connecting to " ++ url
                      ++ lit " via proxy: " ++ m)] |})
  end.
Proof.
  unfold check_proxy_speed. unfold_run.
  destruct (env_http env (S (calls w)) url) as [m|]; unfold_run;
    [destruct (env_http_escapes env (S (calls w)) url); unfold_run|];
    tidy_trace; reflexivity.
Qed.

(** *** The dictionary of sheets *)











Lemma fs_write_same (path : str) (f : file) (fs : filesystem) :
  fs_write path f fs path = f.
Proof. unfold fs_write. rewrite str_eqb_refl. reflexivity. Qed.

Lemma fs_write_other (path p : str) (f : file) (fs : filesystem) :
  p <> path -> fs_write path f fs p = fs p.
Proof. intros H. unfold fs_write. rewrite (str_eqb_neq _ _ H). reflexivity. Qed.

(** *** [log_to_excel] *)

Ltac found_in H :=
  cbn [In] in H;
  repeat match type of H with
    | _ \/ _ => destruct H as [H|H]
    | False => destruct H
    | _ = _ => try discriminate H
    end.

Ltac no_failed_read :=
  let m := fresh "m" in
  let H := fresh "H" in
  intros m H; found_in H.

(** [log_to_excel] returns whatever the store does, provided the value
    formats.  It reads one time stamp and looks at the log file only.
    Either the read of the file fails, and then nothing goes to the writer
    and no file changes; or it hands to the writer, once, the sheets it
    read (none when there is no file) with the new row merged in, and what
    a successful write stores is that workbook under the titles the writer
    chose. *)
Lemma log_to_excel_run (env : Env) (lf url : str) (dt : pynum)
    (status t : str) (w : world) :
  format_4f dt = Some t ->
  let key := sanitize_sheet_name url in
  let r := new_row (env_now env (calls w)) url t status in
  exists w' rest,
    log_to_excel env lf url dt status w = (Ok tt, w')
    /\ trace w' = trace w ++ Call_log_to_excel lf url dt status
                            :: Now (env_now env (calls w)) :: rest
    /\ (steps rest = [] /\ probed rest = [] /\ recorded rest = []
        /\ stamps_of rest = [] /\ transport_calls rest = [])
    /\ Forall (fun p => p = lf) (store_paths rest)
    /\ (forall p, p <> lf -> files w' p = files w p)
    /\ (files w lf = Garbage -> exists m, In (ExcelRead lf (Some m)) rest)
    /\ ((exists m, In (ExcelRead lf (Some m)) rest)
        /\ written rest = [] /\ files w' = files w
        \/ (forall m, ~ In (ExcelRead lf (Some m)) rest)
           /\ exists sheets_read f,
                (In (PathExists lf false) rest /\ sheets_read = []
                 \/ In (ExcelParsed lf sheets_read) rest)
                /\ written rest = [merge_row key r sheets_read]
                /\ In (ExcelWrite lf (merge_row key r sheets_read) f) rest
                /\ (f = None ->
                    exists title_of,
                      files w' lf =
                      Workbook (stored_as title_of
                                  (merge_row key r sheets_read)))).
Proof.
  intros Hf key r. subst key r. unfold log_to_excel. rewrite Hf. run.
  destruct (files w lf) as [| |b] eqn:Efile; run.
  - destruct (env_write env (S (S (calls w)))) as [[m remains]|] eqn:Ew;
      run; tidy_trace; (eexists; eexists; split; [reflexivity|]);
      cbn [trace files]; (split; [reflexivity|]);
      (split; [repeat split; reflexivity|]);
      (split; [cbn; repeat constructor|]);
      (split; [intros p Hp; apply fs_write_other; exact Hp|]);
      (split; [discriminate|]); right; (split; [no_failed_read|]);
      exists []; eexists; (split; [left; split; [cbn [In]; tauto|reflexivity]|]);
      (split; [reflexivity|]); (split; [cbn [In]; tauto|]).
    + discriminate.
    + intros _. eexists. apply fs_write_same.
  - tidy_trace. eexists; eexists; split; [reflexivity|].
    cbn [trace files]. split; [reflexivity|].
    split; [repeat split; reflexivity|].
    split; [cbn; repeat constructor|].
    split; [reflexivity|].
    split; [intros _; eexists; cbn [In]; tauto|].
    left. split; [eexists; cbn [In]; tauto|]. split; reflexivity.
  - destruct (env_read env (S (S (calls w)))) as [m|] eqn:Er; run.
    + tidy_trace. eexists; eexists; split; [reflexivity|].
      cbn [trace files]. split; [reflexivity|].
      split; [repeat split; reflexivity|].
      split; [cbn; repeat constructor|].
      split; [reflexivity|].
      split; [discriminate|].
      left. split; [eexists; cbn [In]; tauto|]. split; reflexivity.
    + destruct (env_write env (S (S (S (calls w))))) as [[m remains]|] eqn:Ew;
        run; tidy_trace; (eexists; eexists; split; [reflexivity|]);
        cbn [trace files]; (split; [reflexivity|]);
        (split; [repeat split; reflexivity|]);
        (split; [cbn; repeat constructor|]);
        (split; [intros p Hp; apply fs_write_other; exact Hp|]);
        (split; [discriminate|]); right; (split; [no_failed_read|]);
        eexists; eexists;
        (split; [right; cbn [In]; right; right; left; reflexivity|]);
        (split; [reflexivity|]); (split; [cbn [In]; tauto|]).
      * discriminate.
      * intros _. eexists. apply fs_write_same.
Qed.
(** *** [send_email_alert] *)

Ltac case_smtp env :=
  repeat match goal with
    | |- context [env_smtp env ?n] =>
        let E := fresh "Esmtp" in
        destruct (env_smtp env n) eqn:E; run
    end.



(** *** The loop of [main] *)




Lemma format_zero : format_4f (PyInt 0) = Some (lit "0.0000").
Proof. reflexivity. Qed.

Lemma stamps_of_app (a b : list event) :
  stamps_of (a ++ b) = stamps_of a ++ stamps_of b.
Proof. apply flat_map_app. Qed.


Ltac call_log_to_excel env Hfmt :=
  match goal with
  | |- context [log_to_excel env ?lf ?url ?dt ?status ?w0] =>
      let w1 := fresh "w1" in
      let rest := fresh "rest" in
      let Hrun := fresh "Hlog" in
      let Htr := fresh "Htr" in
      let Hno := fresh "Hquiet" in
      let Hpaths := fresh "Hpaths" in
      let Hframe := fresh "Hframe" in
      let Hgarb := fresh "Hgarb" in
      let Hst := fresh "Hstore" in
      destruct (log_to_excel_run env lf url dt status _ w0 Hfmt)
        as (w1 & rest & Hrun & Htr & Hno & Hpaths & Hframe & Hgarb & Hst);
      rewrite Hrun
  end.


Lemma format_float (t : spec_float) :
  format_4f (PyFloat t) = Some (format_float_4f t).
Proof. reflexivity. Qed.



(** [main] stops before the loop exactly when a required setting is
    missing. *)
Lemma main_run (env : Env) (args : Args) (w : world) :
  main env args w =
  if required_present args
  then for_each (targets args)
         (check_website env args
            (lit "http://" ++ text (host args) ++ lit ":"
             ++ int_text (port args))) w
  else (Raise (SystemExit 2), w).
Proof.
  unfold main, targets. destruct (required_present args); reflexivity.
Qed.

(** ** The partition key *)

(** C1 (as amended). For every target URL the partition key is obtained by
    deleting every occurrence of "https://", then of "http://", then of
    "www." (wherever it stands, not only at the front), replacing each of
    the characters [ ] / \ ? * : by an underscore, and keeping the first 31
    characters. *)
Theorem sanitize_deletes_markers_everywhere (url : str) :
  sanitize_sheet_name url = sanitize_everywhere url.
Proof. apply sanitize_sheet_name_unfold. Qed.

(** A marker that is not at the front is deleted too, so the key is not the
    one obtained by stripping leading markers only. *)
Lemma sanitize_leading_counterexample :
  let url := lit "https://example.com/www.html" in
  sanitize_sheet_name url = lit "example.com_html"
  /\ sanitize_leading url = lit "example.com_www.html"
  /\ sanitize_sheet_name url <> sanitize_leading url.
Proof.
  cbv zeta. split; [reflexivity|]. split; [reflexivity|].
  vm_compute. discriminate.
Qed.

(** C9. Sanitization is deterministic, and for every URL the key has at
    most 31 characters and none of the characters [ ] / \ ? * :. *)
Theorem sanitize_deterministic_short_clean (url url' : str) :
  url = url' ->
  sanitize_sheet_name url = sanitize_sheet_name url'
  /\ List.length (sanitize_sheet_name url) <= 31
  /\ (forall c, In c invalid_chars -> ~ In c (sanitize_sheet_name url)).
Proof.
  intros <-. split; [reflexivity|]. split.
  - unfold sanitize_sheet_name. apply firstn_le_length.
  - intros c Hc Hin. rewrite sanitize_sheet_name_unfold in Hin.
    unfold sanitize_everywhere in Hin. apply In_firstn in Hin.
    exact (underscore_invalid_clean _ _ Hc Hin).
Qed.

Lemma sanitize_deterministic_short_clean_witness :
  let url := lit "https://www.example.com/a?b" in
  sanitize_sheet_name url = sanitize_sheet_name url
  /\ List.length (sanitize_sheet_name url) <= 31
  /\ (forall c, In c invalid_chars -> ~ In c (sanitize_sheet_name url)).
Proof.
  exact (sanitize_deterministic_short_clean
           (lit "https://www.example.com/a?b") _ eq_refl).
Defined.

(** ** Alert dispatch *)

Lemma events_of_eq {A} (m : M A) (w : world) (r : result A) (c : nat)
    (fs : filesystem) (evs : list event) :
  m w = (r, {| calls := c; files := fs; trace := trace w ++ evs |}) ->
  events_of m w = evs.
Proof. intros H. eapply events_of_run; [exact H | reflexivity]. Qed.

(** A skipped dispatch: one line is printed and nothing else happens. *)
Lemma send_email_alert_skipped (env : Env) (args : Args) (subject body : str)
    (w : world) :
  truthy_str (recipient_email args) = false
  \/ (use_local_mta args = false
      /\ all [truthy_str (smtp_server args); truthy_int (smtp_port args);
              truthy_str (smtp_user args); truthy_str (smtp_password args)]
         = false) ->
  send_email_alert env args subject body w =
  (Ok tt,
   {| calls := calls w; files := files w;
      trace := trace w ++
        [Call_send_email_alert subject body;
         Print (if truthy_str (recipient_email args)
                then lit "External SMTP server configuration is not complete. Skipping email alert."
                else lit "Recipient email not configured. Skipping email alert.")] |}).
Proof.
  intros H. unfold send_email_alert.
  destruct (truthy_str (recipient_email args)); cbn [negb]; run.
  - destruct H as [H|[Hmode Hall]]; [discriminate|].
    rewrite Hmode, Hall. cbn [negb]. run. tidy_trace. reflexivity.
  - tidy_trace. reflexivity.
Qed.

Lemma skipped_run (env : Env) (args : Args) (subject body line : str)
    (w : world) :
  send_email_alert env args subject body w =
  (Ok tt,
   {| calls := calls w; files := files w;
      trace := trace w ++ [Call_send_email_alert subject body; Print line] |})
  ->
  fst (send_email_alert env args subject body w) = Ok tt
  /\ transport_calls (events_of (send_email_alert env args subject body) w)
     = []
  /\ calls (snd (send_email_alert env args subject body w)) = calls w.
Proof.
  intros H. rewrite (events_of_eq _ _ _ _ _ _ H), H.
  repeat split; reflexivity.
Qed.

(** C6. If no recipient address is configured (none, or an empty one),
    [send_email_alert] makes no transport call, in either delivery mode,
    and returns normally; it makes no call to the outside at all. *)
Theorem no_recipient_no_transport (env : Env) (args : Args)
    (subject body : str) (w : world) :
  truthy_str (recipient_email args) = false ->
  fst (send_email_alert env args subject body w) = Ok tt
  /\ transport_calls (events_of (send_email_alert env args subject body) w)
     = []
  /\ calls (snd (send_email_alert env args subject body w)) = calls w.
Proof.
  intros H. eapply skipped_run. apply send_email_alert_skipped.
  left. exact H.
Qed.

Lemma no_recipient_no_transport_witness :
  let run := send_email_alert calm_env local_args_no_recipient
               alert_subject (lit "down") in
  fst (run fresh_world) = Ok tt
  /\ transport_calls (events_of run fresh_world) = []
  /\ calls (snd (run fresh_world)) = calls fresh_world.
Proof.
  exact (no_recipient_no_transport calm_env local_args_no_recipient
           alert_subject (lit "down") fresh_world eq_refl).
Defined.










(** ** The monitoring run *)

(** C2 (a defect of the code). With the proxy host "." the HTTP client
    raises, for the first target already, an exception that is not a
    [RequestException].  [check_proxy_speed] catches [RequestException]
    only and [main] catches nothing, so the run ends with that exception
    right after the first request although no required setting is missing:
    nothing is handed to [log_to_excel], the second target is never probed,
    and the log file is not created. *)
Theorem probe_exception_aborts_run :
  required_present dot_proxy_args = true
  /\ targets dot_proxy_args =
     [lit "https://ok.example"; lit "https://down.example"]
  /\ fst (main escaping_env dot_proxy_args fresh_world) =
     Raise (OtherException (lit "Failed to parse: http://.:8080"))
  /\ events_of (main escaping_env dot_proxy_args) fresh_world =
     [Print (lit "Checking https://ok.example through proxy ....");
      Clock (env_clock escaping_env 0);
      HttpGet (lit "https://ok.example") (lit "http://.:8080") 30
        (Some (lit "Failed to parse: http://.:8080"))]
  /\ probed (events_of (main escaping_env dot_proxy_args) fresh_world) =
     [lit "https://ok.example"]
  /\ recorded (events_of (main escaping_env dot_proxy_args) fresh_world) = []
  /\ files (snd (main escaping_env dot_proxy_args fresh_world))
       (lit "log.xlsx") = Absent.
Proof. vm_compute. repeat split; reflexivity. Qed.



Lemma in_probed (url proxy_url : str) (timeout : Z) (f : option str)
    (evs : list event) :
  In (HttpGet url proxy_url timeout f) evs -> In url (probed evs).
Proof.
  intros H. unfold probed. apply in_flat_map.
  exists (HttpGet url proxy_url timeout f). split; [exact H | left; reflexivity].
Qed.

Lemma written_app (a b : list event) :
  written (a ++ b) = written a ++ written b.
Proof. apply flat_map_app. Qed.





(** ** The history store *)





(** C8. If nothing exists at the path of the store, an append takes the
    store as having no partition: nothing is read, and the workbook handed
    to the writer has exactly one partition, under the target's key,
    holding exactly the new row; when the write goes through, that workbook
    is the store. *)
Theorem append_to_missing_store (env : Env) (lf url : str) (dt : pynum)
    (status t : str) (w : world) :
  files w lf = Absent ->
  format_4f dt = Some t ->
  let new_store :=
    [(sanitize_sheet_name url,
      [mk_row (env_now env (calls w)) url t status])] in
  exists failure tail,
    fst (log_to_excel env lf url dt status w) = Ok tt
    /\ events_of (log_to_excel env lf url dt status) w =
       [Call_log_to_excel lf url dt status; Now (env_now env (calls w));
        PathExists lf false; ExcelWrite lf new_store failure] ++ tail
    /\ (failure = None ->
        tail = []
        /\ files (snd (log_to_excel env lf url dt status w)) lf =
           Workbook new_store).
Proof.
  intros Habs Hf new_store. subst new_store.
  unfold events_of, log_to_excel. rewrite Hf. run.
  destruct (env_write env (S (S (calls w)))) as [[m remains]|] eqn:Ew; run;
    tidy_trace; cbn [fst snd trace files]; rewrite skipn_length_app.
  - exists (Some m). eexists. split; [reflexivity|].
    split; [reflexivity | discriminate].
  - exists None, []. split; [reflexivity|]. split; [reflexivity|].
    intros _. split; [reflexivity | apply fs_write_same].
Qed.

Lemma append_to_missing_store_witness :
  let new_store :=
    [(lit "down.example",
      [mk_row (lit "T0") (lit "https://down.example") (lit "0.0000")
         (lit "DOWN")])] in
  let run := log_to_excel calm_env (lit "log.xlsx")
               (lit "https://down.example") (PyInt 0) (lit "DOWN") in
  exists failure tail,
    fst (run fresh_world) = Ok tt
    /\ events_of run fresh_world =
       [Call_log_to_excel (lit "log.xlsx") (lit "https://down.example")
          (PyInt 0) (lit "DOWN");
        Now (lit "T0"); PathExists (lit "log.xlsx") false;
        ExcelWrite (lit "log.xlsx") new_store failure] ++ tail
    /\ (failure = None ->
        tail = []
        /\ files (snd (run fresh_world)) (lit "log.xlsx") =
           Workbook new_store).
Proof.
  exact (append_to_missing_store calm_env (lit "log.xlsx")
           (lit "https://down.example") (PyInt 0) (lit "DOWN")
           (lit "0.0000") fresh_world eq_refl eq_refl).
Defined.

(** ** End-to-end runs *)

(** One target, probed in a quarter of a second: its partition gains one
    row (UP, "0.2500") and no alert is sent. *)
Example scenario_up :
  let run := main calm_env (local_args_for [lit "https://ok.example"]) in
  files (snd (run fresh_world)) (lit "log.xlsx") =
    Workbook [(lit "ok.example",
               [mk_row (lit "T3") (lit "https://ok.example") (lit "0.2500")
                  (lit "UP")])]
  /\ steps (events_of run fresh_world) =
     [Probed (lit "https://ok.example") false]
  /\ transport_calls (events_of run fresh_world) = [].
Proof. vm_compute. repeat split; reflexivity. Qed.

(** One target that times out, local-relay mode with a recipient: its
    partition gains one row (DOWN, "0.0000") and one alert goes to the
    local relay. *)
Example scenario_down :
  let run := main calm_env (local_args_for [lit "https://down.example"]) in
  files (snd (run fresh_world)) (lit "log.xlsx") =
    Workbook [(lit "down.example",
               [mk_row (lit "T2") (lit "https://down.example")
                  (lit "0.0000") (lit "DOWN")])]
  /\ transport_calls (events_of run fresh_world) =
     [SmtpConnect (lit "localhost") None;
      SmtpSend
        {| msg_body :=
             alert_body (local_args_for [lit "https://down.example"])
               (lit "https://down.example") (lit "T5");
           msg_subject := alert_subject;
           msg_to := lit "ops@example.org";
           msg_from := Some (lit "ops@box") |} None;
      SmtpQuit None].
Proof. vm_compute. repeat split; reflexivity. Qed.

(** Two targets, one up and one down: two partitions of one row each and
    exactly one alert. *)
Example scenario_up_and_down :
  let run := main calm_env local_args in
  let store := files (snd (run fresh_world)) (lit "log.xlsx") in
  option_map (@List.length row) (history (lit "ok.example") store) = Some 1
  /\ option_map (@List.length row) (history (lit "down.example") store)
     = Some 1
  /\ List.length (partitions store) = 2
  /\ List.length
       (filter (fun e => match e with SmtpSend _ _ => true | _ => false end)
          (events_of run fresh_world)) = 1.
Proof. vm_compute. repeat split; reflexivity. Qed.

(** * Further properties *)

(** ** More on the partition key *)

Ltac scan :=
  repeat (rewrite replace_cons;
          cbn [starts_with char_eqb N.eqb Pos.eqb andb app List.length
               skipn]).

Lemma replace_https_prefix (u : str) :
  replace (lit "https://") [] (lit "https://" ++ u) =
  replace (lit "https://") [] u.
Proof.
  change (lit "https://") with [104; 116; 116; 112; 115; 58; 47; 47]%N.
  cbn [app]. rewrite replace_cons.
  cbn [starts_with char_eqb N.eqb Pos.eqb andb app List.length skipn].
  reflexivity.
Qed.

Lemma replace_https_http (u : str) :
  replace (lit "https://") [] (lit "http://" ++ u) =
  lit "http://" ++ replace (lit "https://") [] u.
Proof.
  change (lit "https://") with [104; 116; 116; 112; 115; 58; 47; 47]%N.
  change (lit "http://") with [104; 116; 116; 112; 58; 47; 47]%N.
  cbn [app]. scan. reflexivity.
Qed.

Lemma replace_http_prefix (u : str) :
  replace (lit "http://") [] (lit "http://" ++ u) =
  replace (lit "http://") [] u.
Proof.
  change (lit "http://") with [104; 116; 116; 112; 58; 47; 47]%N.
  cbn [app]. rewrite replace_cons.
  cbn [starts_with char_eqb N.eqb Pos.eqb andb app List.length skipn].
  reflexivity.
Qed.

Lemma replace_https_www (u : str) :
  replace (lit "https://") [] (lit "www." ++ u) =
  lit "www." ++ replace (lit "https://") [] u.
Proof.
  change (lit "https://") with [104; 116; 116; 112; 115; 58; 47; 47]%N.
  change (lit "www.") with [119; 119; 119; 46]%N.
  cbn [app]. scan. reflexivity.
Qed.

Lemma replace_http_www (u : str) :
  replace (lit "http://") [] (lit "www." ++ u) =
  lit "www." ++ replace (lit "http://") [] u.
Proof.
  change (lit "http://") with [104; 116; 116; 112; 58; 47; 47]%N.
  change (lit "www.") with [119; 119; 119; 46]%N.
  cbn [app]. scan. reflexivity.
Qed.

Lemma replace_www_prefix (u : str) :
  replace (lit "www.") [] (lit "www." ++ u) = replace (lit "www.") [] u.
Proof.
  change (lit "www.") with [119; 119; 119; 46]%N.
  cbn [app]. rewrite replace_cons.
  cbn [starts_with char_eqb N.eqb Pos.eqb andb app List.length skipn].
  reflexivity.
Qed.

Lemma sanitize_drops_prefix (u : str) :
  sanitize_sheet_name (lit "https://" ++ u) = sanitize_sheet_name u
  /\ sanitize_sheet_name (lit "http://" ++ u) = sanitize_sheet_name u
  /\ sanitize_sheet_name (lit "www." ++ u) = sanitize_sheet_name u.
Proof.
  unfold sanitize_sheet_name. split; [|split].
  - rewrite replace_https_prefix. reflexivity.
  - rewrite replace_https_http, replace_http_prefix. reflexivity.
  - rewrite replace_https_www, replace_http_www, replace_www_prefix.
    reflexivity.
Qed.

(** X1. A leading "https://", "http://" or "www." does not count for the
    key: the URL with and without it have the same key, so the http and
    https addresses of a site, with or without www., share one partition. *)
Theorem sanitize_ignores_leading_marker (u : str) :
  sanitize_sheet_name (lit "https://" ++ u) = sanitize_sheet_name u
  /\ sanitize_sheet_name (lit "http://" ++ u) = sanitize_sheet_name u
  /\ sanitize_sheet_name (lit "www." ++ u) = sanitize_sheet_name u.
Proof. apply sanitize_drops_prefix. Qed.

Lemma contains_cons (pat : str) (c : char) (t : str) :
  contains pat (c :: t) = false ->
  starts_with pat (c :: t) = false /\ contains pat t = false.
Proof. cbn [contains]. apply orb_false_iff. Qed.

Lemma contains_starts_with (pat s : str) :
  contains pat s = false -> starts_with pat s = false.
Proof.
  destruct s as [|c t]; cbn [contains]; intros H;
    apply orb_false_iff in H; apply H.
Qed.

(** Where [old] does not occur there is nothing to replace. *)
Lemma replace_absent (o : char) (old' new s : str) :
  contains (o :: old') s = false -> replace (o :: old') new s = s.
Proof.
  induction s as [|c t IH]; intros H; [reflexivity|].
  apply contains_cons in H. destruct H as [Hhead Htail].
  rewrite replace_cons, Hhead, (IH Htail). reflexivity.
Qed.

Lemma strip_leading_absent (p s : str) :
  contains p s = false -> strip_leading p s = s.
Proof.
  intros H. unfold strip_leading. rewrite (contains_starts_with _ _ H).
  reflexivity.
Qed.

Lemma sanitize_marker_free (u : str) :
  (forall m, In m markers -> contains m u = false) ->
  sanitize_sheet_name u = firstn 31 (underscore_invalid u)
  /\ sanitize_leading u = firstn 31 (underscore_invalid u).
Proof.
  intros H.
  assert (H1 : contains (lit "https://") u = false)
    by (apply H; cbn; tauto).
  assert (H2 : contains (lit "http://") u = false)
    by (apply H; cbn; tauto).
  assert (H3 : contains (lit "www.") u = false)
    by (apply H; cbn; tauto).
  split.
  - unfold sanitize_sheet_name, underscore_invalid.
    change (lit "_") with [95%N]. rewrite replace_each_char.
    change (lit "https://") with (104%N :: lit "ttps://") in *.
    change (lit "http://") with (104%N :: lit "ttp://") in *.
    change (lit "www.") with (119%N :: lit "ww.") in *.
    rewrite (replace_absent _ _ _ _ H1), (replace_absent _ _ _ _ H2),
      (replace_absent _ _ _ _ H3).
    reflexivity.
  - unfold sanitize_leading.
    rewrite (strip_leading_absent _ _ H1), (strip_leading_absent _ _ H2),
      (strip_leading_absent _ _ H3).
    reflexivity.
Qed.

Lemma starts_with_prefix (p u : str) : starts_with p (p ++ u) = true.
Proof.
  induction p as [|c p IH]; [reflexivity|].
  cbn [app starts_with]. rewrite char_eqb_refl, IH. reflexivity.
Qed.

Lemma strip_leading_prefix (p u : str) : strip_leading p (p ++ u) = u.
Proof.
  unfold strip_leading. rewrite starts_with_prefix.
  induction p as [|c p IH]; [reflexivity | exact IH].
Qed.

Lemma sanitize_leading_prefixes (scheme www u : str) :
  In scheme [[]; lit "http://"; lit "https://"] ->
  In www [[]; lit "www."] ->
  (forall m, In m markers -> contains m u = false) ->
  sanitize_leading (scheme ++ www ++ u) = sanitize_leading u.
Proof.
  intros Hs Hw H.
  assert (H1 : strip_leading (lit "https://") u = u)
    by (apply strip_leading_absent, H; cbn; tauto).
  assert (H2 : strip_leading (lit "http://") u = u)
    by (apply strip_leading_absent, H; cbn; tauto).
  assert (H3 : strip_leading (lit "www.") u = u)
    by (apply strip_leading_absent, H; cbn; tauto).
  assert (E1 : forall x, strip_leading (lit "https://") (lit "http://" ++ x)
                         = lit "http://" ++ x) by reflexivity.
  assert (E2 : forall x, strip_leading (lit "https://") (lit "www." ++ x)
                         = lit "www." ++ x) by reflexivity.
  assert (E3 : forall x, strip_leading (lit "http://") (lit "www." ++ x)
                         = lit "www." ++ x) by reflexivity.
  unfold sanitize_leading. f_equal. f_equal. rewrite H1, H2, H3.
  destruct Hs as [<-|[<-|[<-|[]]]]; destruct Hw as [<-|[<-|[]]];
    cbn [app];
    rewrite ?E1, ?E2, ?strip_leading_prefix, ?E3, ?strip_leading_prefix,
      ?H1, ?H2, ?H3;
    reflexivity.
Qed.

(** X2. For a URL made of an optional "http://" or "https://", an optional
    "www." and a rest in which none of the three markers occurs, the key is
    the first 31 characters of the rest with the invalid characters
    replaced, and stripping leading markers only gives the same key. *)
Theorem ordinary_url_key (scheme www u : str) :
  In scheme [[]; lit "http://"; lit "https://"] ->
  In www [[]; lit "www."] ->
  (forall m, In m markers -> contains m u = false) ->
  sanitize_sheet_name (scheme ++ www ++ u) = firstn 31 (underscore_invalid u)
  /\ sanitize_leading (scheme ++ www ++ u) = firstn 31 (underscore_invalid u).
Proof.
  intros Hs Hw H. destruct (sanitize_marker_free u H) as [Hcode Hlead].
  split.
  - rewrite <- Hcode.
    destruct (sanitize_drops_prefix (www ++ u)) as (E1 & E2 & _).
    destruct (sanitize_drops_prefix u) as (_ & _ & E3).
    destruct Hs as [<-|[<-|[<-|[]]]]; destruct Hw as [<-|[<-|[]]];
      cbn [app]; rewrite ?E2, ?E1; cbn [app]; rewrite ?E3; reflexivity.
  - rewrite <- Hlead. apply sanitize_leading_prefixes; assumption.
Qed.

Lemma ordinary_url_key_witness :
  sanitize_sheet_name (lit "https://" ++ lit "www." ++ lit "example.com/a?b")
  = firstn 31 (underscore_invalid (lit "example.com/a?b"))
  /\ sanitize_leading (lit "https://" ++ lit "www." ++ lit "example.com/a?b")
     = firstn 31 (underscore_invalid (lit "example.com/a?b")).
Proof.
  apply (ordinary_url_key (lit "https://") (lit "www.")
           (lit "example.com/a?b")).
  - right. right. left. reflexivity.
  - right. left. reflexivity.
  - intros m [<-|[<-|[<-|[]]]]; reflexivity.
Defined.

(** ** More on the pipeline *)

Lemma store_paths_app (a b : list event) :
  store_paths (a ++ b) = store_paths a ++ store_paths b.
Proof. apply flat_map_app. Qed.

Lemma transport_calls_app (a b : list event) :
  transport_calls (a ++ b) = transport_calls a ++ transport_calls b.
Proof. apply filter_app. Qed.

Ltac finish_quiet :=
  tidy_trace; eexists; eexists; (split; [reflexivity|]);
  cbn [trace files]; (split; [reflexivity|]);
  repeat split; reflexivity.

(** [send_email_alert] neither probes nor looks at the store. *)
Lemma send_email_alert_quiet (env : Env) (args : Args) (subject body : str)
    (w : world) :
  exists w' evs,
    send_email_alert env args subject body w = (Ok tt, w')
    /\ trace w' = trace w ++ evs
    /\ probed evs = []
    /\ store_paths evs = []
    /\ written evs = []
    /\ files w' = files w.
Proof.
  unfold send_email_alert.
  destruct (truthy_str (recipient_email args)); cbn [negb]; run;
    [|finish_quiet].
  destruct (use_local_mta args); run.
  - case_smtp env; finish_quiet.
  - destruct (all _); cbn [negb]; run; [|finish_quiet].
    destruct (smtp_port args) as [p|]; run; [|finish_quiet].
    case_smtp env; finish_quiet.
Qed.

(** *** One pass of the loop, in more detail *)

Lemma in_notified (subject body : str) (evs : list event) :
  In (Call_send_email_alert subject body) evs ->
  In (Notified subject body) (steps evs).
Proof.
  intros H. unfold steps. apply in_flat_map.
  exists (Call_send_email_alert subject body).
  split; [exact H | left; reflexivity].
Qed.

Ltac alert_quiet env :=
  match goal with
  | |- context [send_email_alert env ?args ?subject ?body ?w0] =>
      destruct (send_email_alert_quiet env args subject body w0)
        as (w2 & evs2 & Hsend & Htr2 & Hp2 & Hpaths2 & Hwr2 & Hfiles2);
      rewrite Hsend
  end.

(** Projections of the store events of a trace given as explicit events
    around parts whose projections are known. *)
Ltac project_store :=
  unfold store_paths, written in *;
  repeat (progress (cbn [flat_map app]; rewrite ?flat_map_app));
  repeat match goal with
    | H : flat_map _ ?r = [] |- _ => rewrite H
    end;
  rewrite ?app_nil_r.

(** A failed read of the log file: nothing is written, no file changes. *)
Lemma failed_read_quiet (lf : str) (rest : list event) (fs fs' : filesystem)
    (P : Prop) :
  (exists m, In (ExcelRead lf (Some m)) rest) ->
  (exists m, In (ExcelRead lf (Some m)) rest) /\ written rest = [] /\ fs' = fs
  \/ (forall m, ~ In (ExcelRead lf (Some m)) rest) /\ P ->
  fs' = fs /\ written rest = [].
Proof.
  intros [m Hm] [(_ & Hnone & Hsame)|(Hno & _)].
  - split; assumption.
  - destruct (Hno m Hm).
Qed.

Lemma check_website_effects (env : Env) (args : Args)
    (proxy_url site : str) (w : world) :
  let lf := text (log_file args) in
  exists r w' evs,
    check_website env args proxy_url site w = (r, w')
    /\ trace w' = trace w ++ evs
    /\ (forall u p t f, In (HttpGet u p t f) evs ->
        u = site /\ p = proxy_url /\ t = 30%Z)
    /\ Forall (fun p => p = lf) (store_paths evs)
    /\ (forall p, p <> lf -> files w' p = files w p)
    /\ (files w lf = Garbage -> files w' = files w /\ written evs = [])
    /\ ((forall m, ~ In (HttpGet site proxy_url 30 (Some m)) evs) ->
        transport_calls evs = []
        /\ forall subject body, ~ In (Call_send_email_alert subject body) evs).
Proof.
  intros lf. subst lf. unfold check_website. run.
  rewrite check_proxy_speed_run. cbn [calls].
  destruct (env_http env (S (calls w)) site) as [m|] eqn:Ehttp;
    [destruct (env_http_escapes env (S (calls w)) site) eqn:Eesc|].
  - eexists. eexists. eexists. split; [reflexivity|].
    cbn [trace files]. tidy_trace. split; [reflexivity|].
    split; [|split; [|split; [|split]]].
    + intros u p t f H. found_in H. injection H as <- <- <- _.
      repeat split.
    + cbn. constructor.
    + reflexivity.
    + intros _. split; reflexivity.
    + intros Hno. exfalso. apply (Hno m). cbn [In]. tauto.
  - call_log_to_excel env format_zero. run. alert_quiet env.
    destruct Hquiet as (Hs1 & Hp1 & Hr1 & Hn1 & Ht1).
    cbn [files calls trace] in *.
    exists (Ok tt), w2. eexists. split; [reflexivity|].
    rewrite Htr2. cbn [trace]. rewrite Htr. cbn [trace]. tidy_trace.
    split; [reflexivity|]. split; [|split; [|split; [|split]]].
    + intros u p t f H. found_in H.
      * injection H as <- <- <- _. repeat split.
      * apply in_app_or in H. destruct H as [H|H].
        -- apply in_probed in H. rewrite Hp1 in H. destruct H.
        -- found_in H. apply in_probed in H. rewrite Hp2 in H. destruct H.
    + project_store. exact Hpaths.
    + intros p Hp. rewrite Hfiles2. apply Hframe. exact Hp.
    + intros Hg.
      destruct (failed_read_quiet _ _ _ _ _ (Hgarb Hg) Hstore)
        as [Hsame Hnone].
      split; [rewrite Hfiles2; exact Hsame|].
      project_store. reflexivity.
    + intros Hno. exfalso. apply (Hno m). cbn [In]. tauto.
  - call_log_to_excel env (format_float
                             (float_sub (env_clock env (S (S (calls w))))
                                (env_clock env (calls w)))).
    destruct Hquiet as (Hs1 & Hp1 & Hr1 & Hn1 & Ht1).
    cbn [files calls trace] in *.
    exists (Ok tt), w1. eexists. split; [reflexivity|].
    rewrite Htr. cbn [trace]. tidy_trace.
    split; [reflexivity|]. split; [|split; [|split; [|split]]].
    + intros u p t f H. found_in H.
      * injection H as <- <- <- _. repeat split.
      * apply in_probed in H. rewrite Hp1 in H. destruct H.
    + project_store. exact Hpaths.
    + exact Hframe.
    + intros Hg.
      destruct (failed_read_quiet _ _ _ _ _ (Hgarb Hg) Hstore)
        as [Hsame Hnone].
      split; [exact Hsame|]. project_store. reflexivity.
    + intros _. split.
      * cbn [transport_calls filter is_transport]. exact Ht1.
      * intros subject body H. found_in H.
        apply in_notified in H. rewrite Hs1 in H. destruct H.
Qed.

(** *** The whole loop, in more detail *)

Lemma loop_effects (env : Env) (args : Args) (proxy_url : str)
    (sites : list str) (w : world) :
  let lf := text (log_file args) in
  exists r w' evs,
    for_each sites (check_website env args proxy_url) w = (r, w')
    /\ trace w' = trace w ++ evs
    /\ (forall u p t f, In (HttpGet u p t f) evs ->
        In u sites /\ p = proxy_url /\ t = 30%Z)
    /\ Forall (fun p => p = lf) (store_paths evs)
    /\ (forall p, p <> lf -> files w' p = files w p)
    /\ (files w lf = Garbage -> files w' = files w /\ written evs = [])
    /\ ((forall u m, ~ In (HttpGet u proxy_url 30 (Some m)) evs) ->
        transport_calls evs = []
        /\ forall subject body, ~ In (Call_send_email_alert subject body) evs).
Proof.
  intros lf. revert w. induction sites as [|site sites IH]; intros w.
  - exists (Ok tt), w, []. cbn [for_each ret]. rewrite app_nil_r.
    split; [reflexivity|]. split; [reflexivity|].
    split; [intros u p t f []|]. split; [constructor|].
    split; [reflexivity|]. split; [intros _; split; reflexivity|].
    intros _. split; [reflexivity | intros subject body []].
  - destruct (check_website_effects env args proxy_url site w)
      as (r1 & w1 & evs1 & Hrun1 & Htr1 & Ha1 & Hb1 & Hf1 & Hc1 & He1).
    fold lf in Hb1, Hf1, Hc1.
    cbn [for_each]. unfold bind at 1. rewrite Hrun1.
    destruct r1 as [[]|e].
    + destruct (IH w1)
        as (r2 & w2 & evs2 & Hrun2 & Htr2 & Ha2 & Hb2 & Hf2 & Hc2 & He2).
      exists r2, w2, (evs1 ++ evs2). rewrite Hrun2.
      split; [reflexivity|].
      split; [rewrite Htr2, Htr1, app_assoc; reflexivity|].
      split; [|split; [|split; [|split]]].
      * intros u p t f H. apply in_app_or in H. destruct H as [H|H].
        -- destruct (Ha1 u p t f H) as (-> & -> & ->).
           split; [left; reflexivity | split; reflexivity].
        -- destruct (Ha2 u p t f H) as (Hin & -> & ->).
           split; [right; exact Hin | split; reflexivity].
      * rewrite store_paths_app. apply Forall_app. split; assumption.
      * intros p Hp. rewrite (Hf2 p Hp). apply Hf1. exact Hp.
      * intros Hg. destruct (Hc1 Hg) as [Hsame1 Hw1].
        assert (Hg1 : files w1 lf = Garbage) by (rewrite Hsame1; exact Hg).
        destruct (Hc2 Hg1) as [Hsame2 Hw2]. split.
        -- rewrite Hsame2. exact Hsame1.
        -- rewrite written_app, Hw1, Hw2. reflexivity.
      * intros Hno.
        assert (Hno1 : forall m,
                   ~ In (HttpGet site proxy_url 30 (Some m)) evs1).
        { intros m H. apply (Hno site m). apply in_or_app. left. exact H. }
        assert (Hno2 : forall u m,
                   ~ In (HttpGet u proxy_url 30 (Some m)) evs2).
        { intros u m H. apply (Hno u m). apply in_or_app. right. exact H. }
        destruct (He1 Hno1) as [Ht1 Hn1]. destruct (He2 Hno2) as [Ht2 Hn2].
        split.
        -- rewrite transport_calls_app, Ht1, Ht2. reflexivity.
        -- intros subject body H. apply in_app_or in H.
           destruct H as [H|H]; [exact (Hn1 _ _ H) | exact (Hn2 _ _ H)].
    + exists (Raise e), w1, evs1.
      split; [reflexivity|]. split; [exact Htr1|].
      split; [|split; [|split; [|split]]]; try assumption.
      * intros u p t f H. destruct (Ha1 u p t f H) as (-> & -> & ->).
        split; [left; reflexivity | split; reflexivity].
      * intros Hno. apply He1. intros m. apply Hno.
Qed.

Lemma main_refused (env : Env) (args : Args) (w : world) :
  required_present args = false ->
  main env args w = (Raise (SystemExit 2), w)
  /\ events_of (main env args) w = [].
Proof.
  intros Hreq. assert (H : main env args w = (Raise (SystemExit 2), w)).
  { rewrite main_run, Hreq. reflexivity. }
  split; [exact H|]. apply (events_of_run _ _ _ _ _ H).
  rewrite app_nil_r. reflexivity.
Qed.

Lemma main_effects (env : Env) (args : Args) (w : world) :
  let lf := text (log_file args) in
  let evs := events_of (main env args) w in
  let w' := snd (main env args w) in
  (forall u p t f, In (HttpGet u p t f) evs ->
   In u (targets args) /\ p = proxy_url_of args /\ t = 30%Z)
  /\ Forall (fun p => p = lf) (store_paths evs)
  /\ (forall p, p <> lf -> files w' p = files w p)
  /\ (files w lf = Garbage -> files w' = files w /\ written evs = [])
  /\ ((forall u m, ~ In (HttpGet u (proxy_url_of args) 30 (Some m)) evs) ->
      transport_calls evs = []
      /\ forall subject body, ~ In (Call_send_email_alert subject body) evs).
Proof.
  intros lf evs w'. subst evs w'.
  destruct (required_present args) eqn:Hreq.
  - destruct (loop_effects env args (proxy_url_of args) (targets args) w)
      as (r & w1 & evs1 & Hrun & Htr & Ha & Hb & Hf & Hc & He).
    assert (Hmain : main env args w = (r, w1))
      by (rewrite main_run, Hreq; exact Hrun).
    rewrite (events_of_run _ _ _ _ _ Hmain Htr), Hmain. cbn [snd].
    split; [exact Ha|]. split; [exact Hb|]. split; [exact Hf|].
    split; [exact Hc | exact He].
  - destruct (main_refused env args w Hreq) as [Hmain Hevs].
    rewrite Hevs, Hmain. cbn [snd].
    split; [intros u p t f []|]. split; [constructor|].
    split; [reflexivity|]. split; [intros _; split; reflexivity|].
    intros _. split; [reflexivity | intros subject body []].
Qed.

(** ** The probe *)

(** X3. [check_proxy_speed] changes no file: it reads the clock and makes
    one request for the URL through the proxy with a timeout of 30
    seconds.  When the request goes through, it reads the clock again and
    returns the difference of the two readings.  When the request raises a
    [RequestException], it prints the cause and returns [None].  When the
    request raises another exception, that exception escapes and nothing is
    printed. *)
Theorem check_proxy_speed_outcome (env : Env) (url proxy_url : str)
    (w : world) :
  exists start tail,
    events_of (check_proxy_speed env url proxy_url) w =
      Clock start
      :: HttpGet url proxy_url 30 (env_http env (S (calls w)) url) :: tail
    /\ match env_http env (S (calls w)) url with
       | None =>
           exists stop,
             tail = [Clock stop]
             /\ fst (check_proxy_speed env url proxy_url w) =
                Ok (Some (float_sub stop start))
       | Some m =>
           if env_http_escapes env (S (calls w)) url
           then
             tail = []
             /\ fst (check_proxy_speed env url proxy_url w) =
                Raise (OtherException m)
           else
             tail = [Print (lit "Error connecting to " ++ url
                            ++ lit " via proxy: " ++ m)]
             /\ fst (check_proxy_speed env url proxy_url w) = Ok None
       end
    /\ files (snd (check_proxy_speed env url proxy_url w)) = files w.
Proof.
  exists (env_clock env (calls w)).
  unfold events_of. rewrite check_proxy_speed_run.
  destruct (env_http env (S (calls w)) url) as [m|];
    [destruct (env_http_escapes env (S (calls w)) url)|];
    cbn [fst snd trace files]; rewrite skipn_length_app; eexists;
    (split; [reflexivity|]); (split; [|reflexivity]).
  - split; reflexivity.
  - split; reflexivity.
  - eexists. split; reflexivity.
Qed.



(** ** More on the monitoring run *)

(** X5. Every request [main] makes is for a configured target, goes
    through the proxy "http://<host>:<port>" built from the settings, and
    has a timeout of 30 seconds. *)
Theorem requests_go_through_proxy (env : Env) (args : Args) (w : world)
    (u p : str) (t : Z) (f : option str) :
  In (HttpGet u p t f) (events_of (main env args) w) ->
  In u (targets args) /\ p = proxy_url_of args /\ t = 30%Z.
Proof.
  destruct (main_effects env args w) as (Ha & _). apply Ha.
Qed.

Lemma requests_go_through_proxy_witness :
  In (lit "https://down.example") (targets local_args)
  /\ lit "http://10.0.0.1:8080" = proxy_url_of local_args
  /\ 30%Z = 30%Z.
Proof.
  apply (requests_go_through_proxy calm_env local_args fresh_world
           (lit "https://down.example") (lit "http://10.0.0.1:8080") 30
           (Some (lit "timed out"))).
  vm_compute. tauto.
Defined.

(** X6. [main] looks for, reads and writes the store at the configured log
    file only, and leaves every other file as it was, whatever the
    environment does. *)
Theorem only_log_file_touched (env : Env) (args : Args) (w : world) :
  Forall (fun p => p = text (log_file args))
    (store_paths (events_of (main env args) w))
  /\ (forall p, p <> text (log_file args) ->
      files (snd (main env args w)) p = files w p).
Proof.
  destruct (main_effects env args w) as (_ & Hb & Hf & _).
  split; assumption.
Qed.

Lemma only_log_file_touched_witness :
  Forall (fun p => p = lit "log.xlsx")
    (store_paths (events_of (main failing_env local_args) seeded_world))
  /\ files (snd (main failing_env local_args seeded_world)) (lit "other.xlsx")
     = files seeded_world (lit "other.xlsx").
Proof.
  destruct (only_log_file_touched failing_env local_args seeded_world)
    as [Hpaths Hframe].
  split; [exact Hpaths|].
  apply Hframe. vm_compute. discriminate.
Defined.

(** X7. When the log file exists but reading it fails, [log_to_excel]
    writes nothing: no workbook is handed to the writer and every file is
    left as it was (the row is lost). *)
Theorem failed_read_writes_nothing (env : Env) (lf url : str) (dt : pynum)
    (status m : str) (w : world) :
  In (ExcelRead lf (Some m)) (events_of (log_to_excel env lf url dt status) w)
  ->
  written (events_of (log_to_excel env lf url dt status) w) = []
  /\ files (snd (log_to_excel env lf url dt status w)) = files w.
Proof.
  destruct (format_4f dt) as [t|] eqn:Hf.
  - destruct (log_to_excel_run env lf url dt status t w Hf)
      as (w1 & rest & Hlog & Htr & _ & _ & _ & _ & Hstore).
    rewrite (events_of_run _ _ _ _ _ Hlog Htr), Hlog. cbn [snd].
    intros H. found_in H.
    cbn [written flat_map app]. fold (written rest).
    destruct (failed_read_quiet _ _ _ _ _ (ex_intro _ m H) Hstore)
      as [Hsame Hnone].
    split; assumption.
  - unfold events_of, log_to_excel. rewrite Hf. run. tidy_trace.
    cbn [snd trace files]. rewrite skipn_length_app. intros H. found_in H.
Qed.

Lemma failed_read_writes_nothing_witness :
  written (events_of (log_to_excel calm_env (lit "log.xlsx")
                        (lit "https://ok.example") (PyInt 0) (lit "DOWN"))
             corrupt_world) = []
  /\ files (snd (log_to_excel calm_env (lit "log.xlsx")
                   (lit "https://ok.example") (PyInt 0) (lit "DOWN")
                   corrupt_world)) = files corrupt_world.
Proof.
  apply (failed_read_writes_nothing calm_env (lit "log.xlsx")
           (lit "https://ok.example") (PyInt 0) (lit "DOWN")
           (lit "Excel file format cannot be determined, you must specify an engine manually.")
           corrupt_world).
  vm_compute. tauto.
Defined.

(** X8. A log file that is not a workbook is never repaired or replaced:
    for the whole run nothing is handed to the writer and every file stays
    as it was, so no target of the run is recorded. *)
Theorem corrupt_log_left_alone (env : Env) (args : Args) (w : world) :
  files w (text (log_file args)) = Garbage ->
  written (events_of (main env args) w) = []
  /\ files (snd (main env args w)) = files w.
Proof.
  intros Hg. destruct (main_effects env args w) as (_ & _ & _ & Hc & _).
  destruct (Hc Hg) as [Hsame Hnone]. split; assumption.
Qed.

Lemma corrupt_log_left_alone_witness :
  written (events_of (main calm_env local_args) corrupt_world) = []
  /\ files (snd (main calm_env local_args corrupt_world))
     = files corrupt_world.
Proof.
  exact (corrupt_log_left_alone calm_env local_args corrupt_world eq_refl).
Defined.



(** X10. A run in which no probe fails calls no mail transport and never
    enters [send_email_alert]. *)
Theorem all_up_no_mail (env : Env) (args : Args) (w : world) :
  (forall u m,
     ~ In (HttpGet u (proxy_url_of args) 30 (Some m))
          (events_of (main env args) w)) ->
  transport_calls (events_of (main env args) w) = []
  /\ (forall subject body,
        ~ In (Call_send_email_alert subject body)
             (events_of (main env args) w)).
Proof.
  destruct (main_effects env args w) as (_ & _ & _ & _ & He). exact He.
Qed.

Lemma all_up_no_mail_witness :
  let args := local_args_for [lit "https://ok.example"] in
  transport_calls (events_of (main calm_env args) fresh_world) = []
  /\ (forall subject body,
        ~ In (Call_send_email_alert subject body)
             (events_of (main calm_env args) fresh_world)).
Proof.
  apply (all_up_no_mail calm_env (local_args_for [lit "https://ok.example"])
           fresh_world).
  intros u m H. vm_compute in H.
  repeat (destruct H as [H|H]; [discriminate H|]). destruct H.
Defined.

(** ** More on the history store *)

(** X13. A value that cannot be formatted (an integer beyond the range of
    a float) makes [log_to_excel] raise: the formatting stands before the
    [try], so the exception escapes, after the time stamp was read and
    before the store is looked at; no file changes. *)
Theorem unformattable_value_escapes (env : Env) (lf url : str) (dt : pynum)
    (status : str) (w : world) :
  format_4f dt = None ->
  (exists e, fst (log_to_excel env lf url dt status w) = Raise e
             /\ is_Exception e = true)
  /\ events_of (log_to_excel env lf url dt status) w =
     [Call_log_to_excel lf url dt status; Now (env_now env (calls w))]
  /\ files (snd (log_to_excel env lf url dt status w)) = files w.
Proof.
  intros Hf. unfold events_of, log_to_excel. rewrite Hf. run. tidy_trace.
  cbn [fst snd trace files]. rewrite skipn_length_app.
  split; [eexists; split; reflexivity|]. split; reflexivity.
Qed.

Lemma unformattable_value_escapes_witness :
  let run := log_to_excel calm_env (lit "log.xlsx") (lit "https://ok.example")
               (PyInt (2 ^ 1024)) (lit "UP") in
  (exists e, fst (run fresh_world) = Raise e /\ is_Exception e = true)
  /\ events_of run fresh_world =
     [Call_log_to_excel (lit "log.xlsx") (lit "https://ok.example")
        (PyInt (2 ^ 1024)) (lit "UP");
      Now (env_now calm_env (calls fresh_world))]
  /\ files (snd (run fresh_world)) = files fresh_world.
Proof.
  apply (unformattable_value_escapes calm_env (lit "log.xlsx")
           (lit "https://ok.example") (PyInt (2 ^ 1024)) (lit "UP")
           fresh_world).
  vm_compute. reflexivity.
Defined.

(** ** More on alert dispatch *)






(** X16. A required setting that is present but false (an empty proxy
    host, a proxy port equal to 0, an empty list of websites, an empty
    path of the log file) is refused like a missing one: [main] ends with
    exit status 2 and no target is probed or recorded, no file changes. *)
Theorem falsy_required_setting_refused (env : Env) (args : Args) (w : world) :
  host args = Some [] \/ port args = Some 0%Z \/ websites args = Some []
  \/ log_file args = Some [] ->
  fst (main env args w) = Raise (SystemExit 2)
  /\ probed (events_of (main env args) w) = []
  /\ recorded (events_of (main env args) w) = []
  /\ files (snd (main env args w)) = files w.
Proof.
  intros H.
  assert (Hreq : required_present args = false).
  { unfold required_present, all. cbn [forallb].
    destruct H as [H|[H|[H|H]]]; rewrite H;
      cbn [truthy_str truthy_int truthy_list Z.eqb negb];
      rewrite ?andb_false_r; reflexivity. }
  destruct (main_refused env args w Hreq) as [Hmain Hevs].
  rewrite Hevs, Hmain. repeat split; reflexivity.
Qed.

Lemma falsy_required_setting_refused_witness :
  let args :=
    {| host := host local_args; port := Some 0%Z;
       websites := websites local_args; log_file := log_file local_args;
       recipient_email := recipient_email local_args;
       use_local_mta := true;
       smtp_server := None; smtp_port := None;
       smtp_user := None; smtp_password := None |} in
  fst (main calm_env args fresh_world) = Raise (SystemExit 2)
  /\ probed (events_of (main calm_env args) fresh_world) = []
  /\ recorded (events_of (main calm_env args) fresh_world) = []
  /\ files (snd (main calm_env args fresh_world)) = files fresh_world.
Proof.
  cbv zeta.
  apply falsy_required_setting_refused. right. left. reflexivity.
Defined.


(** ** What an alert says *)

Ltac finish_messages :=
  tidy_trace; eexists; eexists; (split; [reflexivity|]);
  cbn [trace files]; (split; [reflexivity|]);
  (split; [reflexivity|]);
  intros msg f H; found_in H; try (injection H as <- _; repeat split).

(** Every message [send_email_alert] hands to a transport has the subject
    and the body it was given and goes to the configured recipient. *)
Lemma send_email_alert_messages (env : Env) (args : Args)
    (subject body : str) (w : world) :
  exists w' evs,
    send_email_alert env args subject body w = (Ok tt, w')
    /\ trace w' = trace w ++ evs
    /\ probed evs = []
    /\ (forall msg f, In (SmtpSend msg f) evs ->
        msg_subject msg = subject /\ msg_body msg = body
        /\ msg_to msg = text (recipient_email args)).
Proof.
  unfold send_email_alert.
  destruct (truthy_str (recipient_email args)); cbn [negb]; run;
    [|finish_messages].
  destruct (use_local_mta args); run.
  - case_smtp env; finish_messages.
  - destruct (all _); cbn [negb]; run; [|finish_messages].
    destruct (smtp_port args) as [p|]; run; [|finish_messages].
    case_smtp env; finish_messages.
Qed.

Lemma in_transport_calls (e : event) (evs : list event) :
  In e evs -> is_transport e = true -> In e (transport_calls evs).
Proof. intros H Ht. apply filter_In. split; assumption. Qed.

Lemma check_website_messages (env : Env) (args : Args)
    (proxy_url site : str) (w : world) :
  exists r w' evs,
    check_website env args proxy_url site w = (r, w')
    /\ trace w' = trace w ++ evs
    /\ (forall msg f, In (SmtpSend msg f) evs ->
        msg_subject msg = alert_subject
        /\ msg_to msg = text (recipient_email args)
        /\ exists stamp m,
             msg_body msg = alert_body args site stamp
             /\ In (HttpGet site proxy_url 30 (Some m)) evs).
Proof.
  unfold check_website. run. rewrite check_proxy_speed_run. cbn [calls].
  destruct (env_http env (S (calls w)) site) as [m|] eqn:Ehttp;
    [destruct (env_http_escapes env (S (calls w)) site) eqn:Eesc|].
  - eexists. eexists. eexists. split; [reflexivity|].
    cbn [trace]. tidy_trace. split; [reflexivity|].
    intros msg f H. found_in H.
  - call_log_to_excel env format_zero. run.
    destruct Hquiet as (_ & _ & _ & _ & Ht1).
    match goal with
    | |- context [send_email_alert env ?a ?subject ?body ?w0] =>
        destruct (send_email_alert_messages env a subject body w0)
          as (w2 & evs2 & Hsend & Htr2 & Hp2 & Hmsg);
        rewrite Hsend
    end.
    exists (Ok tt), w2. eexists. split; [reflexivity|].
    rewrite Htr2. cbn [trace]. rewrite Htr. cbn [trace]. tidy_trace.
    split; [reflexivity|].
    intros msg f H. found_in H. apply in_app_or in H. destruct H as [H|H].
    + apply in_transport_calls in H; [|reflexivity].
      rewrite Ht1 in H. destruct H.
    + found_in H. destruct (Hmsg msg f H) as (Hsub & Hbody & Hto).
      split; [exact Hsub|]. split; [exact Hto|].
      eexists. exists m. split; [exact Hbody|]. cbn [In]. tauto.
  - call_log_to_excel env (format_float
                             (float_sub (env_clock env (S (S (calls w))))
                                (env_clock env (calls w)))).
    destruct Hquiet as (_ & _ & _ & _ & Ht1).
    exists (Ok tt), w1. eexists. split; [reflexivity|].
    rewrite Htr. cbn [trace]. tidy_trace. split; [reflexivity|].
    intros msg f H. found_in H.
    apply in_transport_calls in H; [|reflexivity].
    rewrite Ht1 in H. destruct H.
Qed.

Lemma loop_messages (env : Env) (args : Args) (proxy_url : str)
    (sites : list str) (w : world) :
  exists r w' evs,
    for_each sites (check_website env args proxy_url) w = (r, w')
    /\ trace w' = trace w ++ evs
    /\ (forall msg f, In (SmtpSend msg f) evs ->
        msg_subject msg = alert_subject
        /\ msg_to msg = text (recipient_email args)
        /\ exists site stamp m,
             In site sites
             /\ msg_body msg = alert_body args site stamp
             /\ In (HttpGet site proxy_url 30 (Some m)) evs).
Proof.
  revert w. induction sites as [|site sites IH]; intros w.
  - exists (Ok tt), w, []. cbn [for_each ret]. rewrite app_nil_r.
    split; [reflexivity|]. split; [reflexivity | intros msg f []].
  - destruct (check_website_messages env args proxy_url site w)
      as (r1 & w1 & evs1 & Hrun1 & Htr1 & Hm1).
    cbn [for_each]. unfold bind at 1. rewrite Hrun1.
    destruct r1 as [[]|e].
    + destruct (IH w1) as (r2 & w2 & evs2 & Hrun2 & Htr2 & Hm2).
      exists r2, w2, (evs1 ++ evs2). rewrite Hrun2.
      split; [reflexivity|].
      split; [rewrite Htr2, Htr1, app_assoc; reflexivity|].
      intros msg f H. apply in_app_or in H. destruct H as [H|H].
      * destruct (Hm1 msg f H) as (Hsub & Hto & stamp & m & Hbody & Hget).
        split; [exact Hsub|]. split; [exact Hto|].
        exists site, stamp, m. split; [left; reflexivity|].
        split; [exact Hbody|]. apply in_or_app. left. exact Hget.
      * destruct (Hm2 msg f H)
          as (Hsub & Hto & site' & stamp & m & Hin & Hbody & Hget).
        split; [exact Hsub|]. split; [exact Hto|].
        exists site', stamp, m. split; [right; exact Hin|].
        split; [exact Hbody|]. apply in_or_app. right. exact Hget.
    + exists (Raise e), w1, evs1.
      split; [reflexivity|]. split; [exact Htr1|].
      intros msg f H.
      destruct (Hm1 msg f H) as (Hsub & Hto & stamp & m & Hbody & Hget).
      split; [exact Hsub|]. split; [exact Hto|].
      exists site, stamp, m. split; [left; reflexivity|].
      split; [exact Hbody | exact Hget].
Qed.

(** X18. Every message a run hands to a mail transport has the subject
    "Proxy Server Down Alert!", goes to the configured recipient, and has
    the body that names the proxy and a configured target whose request
    failed in this run: no alert is sent about a target that answered. *)
Theorem alerts_name_failed_targets (env : Env) (args : Args) (w : world)
    (msg : message) (f : option str) :
  In (SmtpSend msg f) (events_of (main env args) w) ->
  msg_subject msg = alert_subject
  /\ msg_to msg = text (recipient_email args)
  /\ exists site stamp m,
       In site (targets args)
       /\ msg_body msg = alert_body args site stamp
       /\ In (HttpGet site (proxy_url_of args) 30 (Some m))
             (events_of (main env args) w).
Proof.
  destruct (required_present args) eqn:Hreq.
  - destruct (loop_messages env args (proxy_url_of args) (targets args) w)
      as (r & w' & evs & Hrun & Htr & Hm).
    assert (Hmain : main env args w = (r, w'))
      by (rewrite main_run, Hreq; exact Hrun).
    rewrite (events_of_run _ _ _ _ _ Hmain Htr). apply Hm.
  - destruct (main_refused env args w Hreq) as [_ Hevs].
    rewrite Hevs. intros [].
Qed.

Lemma alerts_name_failed_targets_witness :
  let msg :=
    {| msg_body :=
         lit "The proxy server at 10.0.0.1:8080 seems to be down."
         ++ [10%N]
         ++ lit "Failed to connect to https://down.example at T12."
         ++ [10%N] ++ lit "Please check the proxy server status.";
       msg_subject := alert_subject;
       msg_to := lit "ops@example.org";
       msg_from := Some (lit "ops@box") |} in
  msg_subject msg = alert_subject
  /\ msg_to msg = text (recipient_email local_args)
  /\ exists site stamp m,
       In site (targets local_args)
       /\ msg_body msg = alert_body local_args site stamp
       /\ In (HttpGet site (proxy_url_of local_args) 30 (Some m))
             (events_of (main calm_env local_args) fresh_world).
Proof.
  cbv zeta.
  apply (alerts_name_failed_targets calm_env local_args fresh_world _ None).
  vm_compute. tauto.
Defined.
